(** * Hyrox result cleaning: the row pipeline of [hyrox_data_cleaning.py]

    A shallow embedding of the per-row stages of the script (event-name
    repair, championship flag, year and city extraction, duration parsing,
    completion check, document assembly, NDJSON line) and of the Python
    primitives they call, followed by the properties proved about them.

    Conventions.
    - A Python [str] is a [string]; every character is one code point
      below 256, so the character classes below are CPython's classes
      restricted to U+0000..U+00FF.
    - A CSV text cell is a [cell]: a [str], or the float [nan] that
      [pandas.read_csv] stores for a missing value.
    - A Python exception is the [Raise] case of [result].
    - The cities of step 4 go through the column [df['event_city']]
      before step 8 reads them: what a row without city reads back, [None]
      or [nan], depends on the dtype pandas gives that column, which is a
      parameter [column_dtype] of the document. *)

From Stdlib Require Import String Ascii ZArith List Lia Bool.
From Stdlib Require Import DecimalString DecimalZ DecimalPos DecimalN DecimalFacts.
From stdpp Require Import gmap strings.
Import ListNotations.

Local Open Scope string_scope.
Local Open Scope Z_scope.

(* stdpp freezes [String.append] under [simpl]; the proofs below compute
   with it. *)
#[local] Arguments String.append !_ _ : simpl nomatch.
#[local] Arguments Ascii.eqb !_ !_ : simpl nomatch.

(** ** Exceptions *)

Inductive exn : Type :=
  | UnboundLocalError
  | IndexError
  | AttributeError
  | TypeError
  | ValueError
  | JSONDecodeError
  | RecursionError
  | Unsupported.

Inductive result (A : Type) : Type :=
  | Ok (a : A)
  | Raise (e : exn).

Arguments Ok {A} a.
Arguments Raise {A} e.

Definition rbind {A B : Type} (m : result A) (k : A -> result B) : result B :=
  match m with
  | Ok a => k a
  | Raise e => Raise e
  end.

#[global] Instance result_bind : MBind result := fun A B k m => rbind m k.
#[global] Instance result_ret : MRet result := fun A a => Ok a.

(** [try: body except: return d] *)
Definition try_except {A : Type} (body : result A) (d : A) : A :=
  match body with
  | Ok a => a
  | Raise _ => d
  end.

(** ** Python [str] primitives *)

Module PyStr.

Definition code (c : ascii) : N := N_of_ascii c.

(** [str.isspace] on one character, the separator class of [str.split()]:
    U+0009..U+000D, U+001C..U+001F, U+0020, U+0085, U+00A0. *)
Definition is_space (c : ascii) : bool :=
  let n := code c in
  ((9 <=? n) && (n <=? 13) || (28 <=? n) && (n <=? 32) || (n =? 133) || (n =? 160))%N.

(** A decimal digit (category Nd): what [\d] and [int] accept. *)
Definition is_decimal (c : ascii) : bool :=
  let n := code c in ((48 <=? n) && (n <=? 57))%N.

(** One character of [str.isdigit]: the decimal digits and the
    superscripts U+00B2, U+00B3, U+00B9. *)
Definition is_digit_char (c : ascii) : bool :=
  let n := code c in
  (is_decimal c || (n =? 178) || (n =? 179) || (n =? 185))%N.

Definition digit_value (c : ascii) : Z := Z.of_N (code c) - 48.

Fixpoint forallb_str (p : ascii -> bool) (s : string) : bool :=
  match s with
  | EmptyString => true
  | String c r => p c && forallb_str p r
  end.

(** [s.isdigit()]: false on the empty string. *)
Definition isdigit (s : string) : bool :=
  match s with
  | EmptyString => false
  | _ => forallb_str is_digit_char s
  end.

(** [len(s)] *)
Definition len (s : string) : nat := String.length s.

(** [s.startswith(p)] *)
Fixpoint startswith (p s : string) : bool :=
  match p, s with
  | EmptyString, _ => true
  | String a p', String b s' => Ascii.eqb a b && startswith p' s'
  | String _ _, EmptyString => false
  end.

(** [sub in s] *)
Fixpoint contains (sub s : string) : bool :=
  startswith sub s ||
  match s with
  | EmptyString => false
  | String _ r => contains sub r
  end.

Definition snoc (s : string) (c : ascii) : string := s ++ String c EmptyString.

(** [s.split(sep)] for a non-empty [sep]: a left-to-right scan; [skip]
    counts the characters of a matched separator still to be dropped and
    [cur] is the piece being collected. *)
Fixpoint split_go (sep : string) (skip : nat) (cur : string) (s : string) : list string :=
  match s with
  | EmptyString => [cur]
  | String c r =>
      match skip with
      | S k => split_go sep k cur r
      | O =>
          if startswith sep s
          then cur :: split_go sep (Nat.pred (String.length sep)) EmptyString r
          else split_go sep O (snoc cur c) r
      end
  end.

Definition split (sep s : string) : list string := split_go sep O EmptyString s.

(** [s.split(maxsplit=n)] and [s.split()] ([maxsplit = None], no bound):
    runs of whitespace separate the words; once [n] words were cut the
    remainder, leading whitespace dropped, is the last item as it stands. *)
Fixpoint split_ws_go (maxsplit : option nat) (cur : option string) (s : string) : list string :=
  match s with
  | EmptyString =>
      match cur with
      | Some w => [w]
      | None => []
      end
  | String c r =>
      match cur with
      | Some w =>
          if is_space c then w :: split_ws_go maxsplit None r
          else split_ws_go maxsplit (Some (snoc w c)) r
      | None =>
          if is_space c then split_ws_go maxsplit None r
          else
            match maxsplit with
            | Some O => [s]
            | Some (S k) => split_ws_go (Some k) (Some (String c EmptyString)) r
            | None => split_ws_go None (Some (String c EmptyString)) r
            end
      end
  end.

Definition split_ws (s : string) : list string := split_ws_go None None s.
Definition split_ws_max (n : nat) (s : string) : list string := split_ws_go (Some n) None s.

(** [l[-1]] *)
Definition last_item {A : Type} (l : list A) : result A :=
  match rev l with
  | x :: _ => Ok x
  | [] => Raise IndexError
  end.

(** [l[i]] for [i >= 0] *)
Definition item {A : Type} (l : list A) (i : nat) : result A :=
  match nth_error l i with
  | Some x => Ok x
  | None => Raise IndexError
  end.

(** ASCII lower-casing, the case folding [re.IGNORECASE] applies to the
    letters of an ASCII pattern below U+0100. *)
Definition lower (c : ascii) : ascii :=
  let n := code c in
  if ((65 <=? n) && (n <=? 90))%N then ascii_of_N (n + 32) else c.

Fixpoint lower_str (s : string) : string :=
  match s with
  | EmptyString => EmptyString
  | String c r => String (lower c) (lower_str r)
  end.

(** The whitespace [int] strips: U+0009..U+000D, U+0020, U+0085, U+00A0. *)
Definition is_int_space (c : ascii) : bool :=
  let n := code c in
  ((9 <=? n) && (n <=? 13) || (n =? 32) || (n =? 133) || (n =? 160))%N.

Fixpoint lstrip_int (s : string) : string :=
  match s with
  | String c r => if is_int_space c then lstrip_int r else s
  | EmptyString => EmptyString
  end.

(** The digits of an [int] literal in base 10: digits with single
    underscores between them, then optional whitespace up to the end.
    [need] holds at the start and after an underscore, where a digit is
    required. *)
Fixpoint int_digits (need : bool) (acc : Z) (s : string) : option Z :=
  match s with
  | EmptyString => if need then None else Some acc
  | String c r =>
      if is_decimal c then int_digits false (acc * 10 + digit_value c) r
      else if need then None
      else if Ascii.eqb c "_"%char then int_digits true acc r
      else if forallb_str is_int_space s then Some acc
      else None
  end.

(** [int(s)] for a [str]; [ValueError] when [s] is not a literal. The
    interpreter's bound on the number of digits of a literal
    ([sys.set_int_max_str_digits]) is not modelled. *)
Definition int (s : string) : result Z :=
  let body :=
    match lstrip_int s with
    | String "+"%char r => int_digits true 0 r
    | String "-"%char r => option_map Z.opp (int_digits true 0 r)
    | r => int_digits true 0 r
    end in
  match body with
  | Some z => Ok z
  | None => Raise ValueError
  end.

(** [s[n:]] *)
Fixpoint drop (n : nat) (s : string) : string :=
  match n, s with
  | S k, String _ r => drop k r
  | _, _ => s
  end.

(** [re.search(r'(\d{4})', s)]: the leftmost four consecutive decimal
    digits, as [Series.str.extract] returns them. *)
Fixpoint search_d4 (s : string) : option string :=
  match s with
  | String a ((String b (String c (String d _))) as r) =>
      if is_decimal a && is_decimal b && is_decimal c && is_decimal d
      then Some (String a (String b (String c (String d EmptyString))))
      else search_d4 r
  | _ => None
  end.

End PyStr.

(** ** The rows *)

(** A text cell of the CSV: a [str], or [nan] where the value is missing. *)
Inductive cell : Type :=
  | NaN
  | Str (s : string).

(** [pd.isna(x)] *)
Definition pd_isna (x : cell) : bool :=
  match x with
  | NaN => true
  | Str _ => false
  end.

(** [x == lit] for a string literal [lit]; [nan == lit] is false. *)
Definition cell_eqb (x : cell) (lit : string) : bool :=
  match x with
  | NaN => false
  | Str s => String.eqb s lit
  end.

(** [str(x)] *)
Definition py_str (x : cell) : string :=
  match x with
  | NaN => "nan"
  | Str s => s
  end.

(** [range(a, b)] *)
Definition range (a b : nat) : list nat := seq a (b - a).

(** The columns of the input file. [run i] is the column [run_{i}], and so
    on for [work] and [roxzone]; the script reads them at [i] in 1..8. *)
Record Row : Type := {
  event_id : cell;
  event_name : cell;
  gender : cell;
  nationality : cell;
  age_group : cell;
  division : cell;
  total_time : cell;
  work_time : cell;
  roxzone_time : cell;
  run_time : cell;
  run : nat -> cell;
  work : nat -> cell;
  roxzone : nat -> cell
}.

(** The [_seconds] columns step 5 adds, one per duration column. *)
Record Seconds : Type := {
  total_time_seconds : Z;
  work_time_seconds : Z;
  roxzone_time_seconds : Z;
  run_time_seconds : Z;
  run_seconds : nat -> Z;
  work_seconds : nat -> Z;
  roxzone_seconds : nat -> Z
}.

(** A row of the frame once steps 2 to 7 have run: the input columns
    ([event_name] repaired, [nationality] and [age_group] filled) and the
    derived ones. [event_year] is [None] for [<NA>]; [event_city] is what
    [extract_city] returned for the row, [None] for Python's [None]. *)
Record Enriched : Type := {
  base : Row;
  is_championship : bool;
  event_year : option Z;
  event_city : option string;
  seconds : Seconds;
  is_valid : bool
}.

(** The dtype of the column [df['event_city']] that
    [df.apply(extract_city, axis=1)] builds from the cities of all the
    rows. An [object] column keeps the [None] of a row without city; a
    [str] column holds the float [nan] in its place. *)
Inductive column_dtype : Type :=
  | ObjectDtype
  | StrDtype.

Definition has_city (city : option string) : bool :=
  match city with
  | Some _ => true
  | None => false
  end.

(** The dtype pandas infers for the column. [infer_string] is the option
    [future.infer_string], off in pandas 2 and on in pandas 3: when it is
    on, a column in which some row has a city is a [str] column; a column
    of [None] alone stays an [object] column. *)
Definition city_column (infer_string : bool) (cities : list (option string))
    : column_dtype :=
  if infer_string && existsb has_city cities then StrDtype else ObjectDtype.

(** ** Step 2: event names *)

Definition event_corrections : gmap string string :=
  list_to_map
    [ ("JGDMS4JI5C9", "S6 2023 Munich");
      ("JGDMS4JI464", "S5 2023 Munich");
      ("2EFMS4JI2BE", "S4 2022 Munich");
      ("JGDMS4JI46D", "S6 2023 Malmo");
      ("JGDMS4JI468", "S5 2023 Koln") ].

Definition set_event_name (name : cell) (r : Row) : Row :=
  {| event_id := event_id r; event_name := name; gender := gender r;
     nationality := nationality r; age_group := age_group r;
     division := division r; total_time := total_time r;
     work_time := work_time r; roxzone_time := roxzone_time r;
     run_time := run_time r; run := run r; work := work r;
     roxzone := roxzone r |}.

(** [df.loc[df['event_id'].isin(corrections.keys()), 'event_name'] =
    df['event_id'].map(corrections)], on one row. A missing [event_id] is
    in no key set. *)
Definition fix_event_name (corrections : gmap string string) (r : Row) : Row :=
  match event_id r with
  | Str id =>
      match corrections !! id with
      | Some name => set_event_name (Str name) r
      | None => r
      end
  | NaN => r
  end.

(** ** Step 3: championship flag *)

(** [str.contains('Championship', case=False, na=False)] *)
Definition championship_flag (name : cell) : bool :=
  match name with
  | NaN => false
  | Str s => PyStr.contains "championship" (PyStr.lower_str s)
  end.

(** ** Step 4: year and city *)

(** [df['event_name'].str.extract(r'(\d{4})')]: [None] stands for the
    [nan] of a row without a match. *)
Definition extract_year_text (name : cell) : option string :=
  match name with
  | NaN => None
  | Str s => PyStr.search_d4 s
  end.

Fixpoint decimal_value (acc : Z) (s : string) : Z :=
  match s with
  | EmptyString => acc
  | String c r => decimal_value (acc * 10 + PyStr.digit_value c) r
  end.

(** [astype('Int64')] on the extracted text. *)
Definition astype_Int64 (t : option string) : option Z :=
  option_map (decimal_value 0) t.

Definition extract_year (name : cell) : option Z :=
  astype_Int64 (extract_year_text name).

(** The [for i, part in enumerate(parts)] loop of [extract_city]: [city]
    is the local variable, [None] while it is unbound. The loop leaves at
    the first part of four digits. *)
Fixpoint city_loop (parts : list string) (i : nat) (rest : list string)
    (city : option (option string)) : option (option string) :=
  match rest with
  | [] => city
  | part :: rest' =>
      if PyStr.isdigit part && (PyStr.len part =? 4)%nat
      then Some (if (i + 1 <? length parts)%nat then nth_error parts (i + 1) else None)
      else city_loop parts (S i) rest' city
  end.

(** [return city] *)
Definition return_local {A : Type} (v : option A) : result A :=
  match v with
  | Some a => Ok a
  | None => Raise UnboundLocalError
  end.

(** [extract_city(row)], with [row['event_name']] and
    [row['is_championship']] as arguments. A missing name is a float,
    which has no [split] and does not support [in]. *)
Definition extract_city (name : cell) (is_champ : bool) : result (option string) :=
  match name with
  | NaN => if is_champ then Raise TypeError else Raise AttributeError
  | Str event_name =>
      if is_champ then
        if PyStr.contains " - " event_name then
          city ← PyStr.item (PyStr.split " - " event_name) 0;
          city ← PyStr.last_item (PyStr.split_ws_max 2 city);
          Ok (Some city)
        else
          named ←
            (if PyStr.contains "Championships" event_name then
               final ← PyStr.last_item (PyStr.split_ws event_name);
               Ok (negb (String.eqb final "Championships"))
             else Ok false);
          if named : bool then
            city ← PyStr.last_item (PyStr.split_ws event_name);
            Ok (Some city)
          else
            let parts := PyStr.split_ws event_name in
            return_local (city_loop parts 0 parts None)
      else
        let parts := PyStr.split_ws_max 2 event_name in
        Ok (if (2 <? length parts)%nat then nth_error parts 2 else None)
  end.

(** ** Step 5: durations *)

(** The [try] block of [time_to_seconds]. *)
Definition time_to_seconds_body (time_str : cell) : result Z :=
  let parts := PyStr.split ":" (py_str time_str) in
  if (length parts =? 3)%nat then
    p0 ← PyStr.item parts 0; h ← PyStr.int p0;
    p1 ← PyStr.item parts 1; m ← PyStr.int p1;
    p2 ← PyStr.item parts 2; s ← PyStr.int p2;
    Ok (h * 3600 + m * 60 + s)
  else if (length parts =? 2)%nat then
    p0 ← PyStr.item parts 0; m ← PyStr.int p0;
    p1 ← PyStr.item parts 1; s ← PyStr.int p1;
    Ok (m * 60 + s)
  else Ok 0.

Definition time_to_seconds (time_str : cell) : Z :=
  if pd_isna time_str || cell_eqb time_str "" || cell_eqb time_str "0:00:00"
  then 0
  else try_except (time_to_seconds_body time_str) 0.

(** [time_to_seconds] without the test for the literal ["0:00:00"]. *)
Definition time_to_seconds_no_literal (time_str : cell) : Z :=
  if pd_isna time_str || cell_eqb time_str ""
  then 0
  else try_except (time_to_seconds_body time_str) 0.

Definition convert_times (r : Row) : Seconds :=
  {| total_time_seconds := time_to_seconds (total_time r);
     work_time_seconds := time_to_seconds (work_time r);
     roxzone_time_seconds := time_to_seconds (roxzone_time r);
     run_time_seconds := time_to_seconds (run_time r);
     run_seconds := fun i => time_to_seconds (run r i);
     work_seconds := fun i => time_to_seconds (work r i);
     roxzone_seconds := fun i => time_to_seconds (roxzone r i) |}.

(** ** Step 6: completion *)

(** The [for i in range(1, 9)] loop, leaving with [False] at the first
    split whose run or work time is not positive. *)
Fixpoint completion_loop (row : Seconds) (indices : list nat) : bool :=
  match indices with
  | [] => true
  | i :: rest =>
      if (run_seconds row i <=? 0) || (work_seconds row i <=? 0)
      then false
      else completion_loop row rest
  end.

Definition check_valid_completion (row : Seconds) : bool :=
  completion_loop row (range 1 9).

(** ** Step 7: missing values *)

(** [Series.fillna(d)] on one cell. *)
Definition fillna (d : string) (x : cell) : cell :=
  match x with
  | NaN => Str d
  | Str s => Str s
  end.

Definition fill_missing (r : Row) : Row :=
  {| event_id := event_id r; event_name := event_name r; gender := gender r;
     nationality := fillna "Unknown" (nationality r);
     age_group := fillna "Not specified" (age_group r);
     division := division r; total_time := total_time r;
     work_time := work_time r; roxzone_time := roxzone_time r;
     run_time := run_time r; run := run r; work := work r;
     roxzone := roxzone r |}.

(** Steps 2 to 7 on one row. *)
Definition enrich (r : Row) : result Enriched :=
  let r := fix_event_name event_corrections r in
  let champ := championship_flag (event_name r) in
  let year := extract_year (event_name r) in
  city ← extract_city (event_name r) champ;
  let secs := convert_times r in
  let valid := check_valid_completion secs in
  Ok {| base := fill_missing r; is_championship := champ; event_year := year;
        event_city := city; seconds := secs; is_valid := valid |}.

(** ** Step 8: the document *)

(** The values a document is made of: [None], [bool], [int], the float
    [nan] of a missing text cell or of a missing city in a [str] column,
    [str], [list], and [dict] with [str] keys in insertion order. *)
#[warnings="-register-all"]
Inductive json : Type :=
  | JNull
  | JBool (b : bool)
  | JInt (n : Z)
  | JNaN
  | JStr (s : string)
  | JList (items : list json)
  | JDict (items : list (string * json)).

Definition cell_json (x : cell) : json :=
  match x with
  | NaN => JNaN
  | Str s => JStr s
  end.

(** [row['event_city']] as step 8 reads it from a column of dtype [col]
    that was given [city]. *)
Definition stored_city (col : column_dtype) (city : option string) : json :=
  match city with
  | Some c => JStr c
  | None =>
      match col with
      | ObjectDtype => JNull
      | StrDtype => JNaN
      end
  end.

(** [d[k]] read as an option. *)
Fixpoint dict_get (k : string) (d : list (string * json)) : option json :=
  match d with
  | [] => None
  | (k', v) :: rest => if String.eqb k k' then Some v else dict_get k rest
  end.

Definition get (k : string) (v : json) : option json :=
  match v with
  | JDict d => dict_get k d
  | _ => None
  end.

(** The dict literal [split] of the loop body. *)
Definition split_document (row : Enriched) (i : nat) : json :=
  JDict
    [ ("split_number", JInt (Z.of_nat i));
      ("run_time", cell_json (run (base row) i));
      ("run_seconds", JInt (run_seconds (seconds row) i));
      ("work_time", cell_json (work (base row) i));
      ("work_seconds", JInt (work_seconds (seconds row) i));
      ("roxzone_time", cell_json (roxzone (base row) i));
      ("roxzone_seconds", JInt (roxzone_seconds (seconds row) i)) ].

Definition create_mongo_document (col : column_dtype) (row : Enriched) : json :=
  let splits :=
    fold_left (fun splits i => (splits ++ [split_document row i])%list) (range 1 9) [] in
  JDict
    [ ("event",
       JDict
         [ ("event_id", cell_json (event_id (base row)));
           ("event_name", cell_json (event_name (base row)));
           ("event_year",
            match event_year row with
            | Some y => JInt y
            | None => JNull
            end);
           ("event_city", stored_city col (event_city row));
           ("is_championship", JBool (is_championship row)) ]);
      ("athlete",
       JDict
         [ ("gender", cell_json (gender (base row)));
           ("nationality", cell_json (nationality (base row)));
           ("age_group", cell_json (age_group (base row)));
           ("division", cell_json (division (base row))) ]);
      ("performance",
       JDict
         [ ("total_time", cell_json (total_time (base row)));
           ("total_seconds", JInt (total_time_seconds (seconds row)));
           ("work_time", cell_json (work_time (base row)));
           ("work_seconds", JInt (work_time_seconds (seconds row)));
           ("roxzone_time", cell_json (roxzone_time (base row)));
           ("roxzone_seconds", JInt (roxzone_time_seconds (seconds row)));
           ("run_time", cell_json (run_time (base row)));
           ("run_seconds", JInt (run_time_seconds (seconds row)));
           ("is_valid", JBool (is_valid row)) ]);
      ("splits", JList splits) ].

(** ** Step 9: one line of the output *)

Module Json.

Definition dquote : ascii := ascii_of_N 34.
Definition backslash : ascii := ascii_of_N 92.

Definition hex_digit (n : N) : ascii :=
  if (n <? 10)%N then ascii_of_N (48 + n) else ascii_of_N (87 + n).

(** [ESCAPE_DCT] of [json.encoder]: the replacement of a character that
    [ESCAPE] matches, that is a control character below U+0020, the
    backslash or the double quote. With [ensure_ascii=False] no other
    character is replaced. *)
Definition escape_char (c : ascii) : string :=
  let n := PyStr.code c in
  if (n =? 34)%N then String backslash (String dquote EmptyString)
  else if (n =? 92)%N then String backslash (String backslash EmptyString)
  else if (n =? 8)%N then String backslash "b"
  else if (n =? 12)%N then String backslash "f"
  else if (n =? 10)%N then String backslash "n"
  else if (n =? 13)%N then String backslash "r"
  else if (n =? 9)%N then String backslash "t"
  else if (n <? 32)%N then
    String backslash
      (String "u" (String "0" (String "0"
        (String (hex_digit (n / 16)) (String (hex_digit (n mod 16)) EmptyString)))))
  else String c EmptyString.

Fixpoint escape (s : string) : string :=
  match s with
  | EmptyString => EmptyString
  | String c r => escape_char c ++ escape r
  end.

(** [encode_basestring(s)] *)
Definition encode_basestring (s : string) : string :=
  String dquote (escape s ++ String dquote EmptyString).

(** [int.__repr__] *)
Definition int_repr (n : Z) : string := NilZero.string_of_int (Z.to_int n).

(** [json.dumps(v, ensure_ascii=False)]: the default separators [', ']
    and [': '], [allow_nan] left at its default. *)
Fixpoint dumps (v : json) : string :=
  match v with
  | JNull => "null"
  | JBool true => "true"
  | JBool false => "false"
  | JInt n => int_repr n
  | JNaN => "NaN"
  | JStr s => encode_basestring s
  | JList items => "[" ++ String.concat ", " (map dumps items) ++ "]"
  | JDict items =>
      "{" ++ String.concat ", "
               (map (fun kv => encode_basestring (fst kv) ++ ": " ++ dumps (snd kv)) items)
          ++ "}"
  end.

(** *** Reading a line back

    [json.loads] as [json.decoder] and [json.scanner] define it, on the
    values of [json]. A number with a fraction or an exponent, [Infinity]
    and [-Infinity] are floats [json] does not have: they are reported as
    [Unsupported], as is a [\u] escape of a code point above U+00FF. *)

(** The whitespace [WHITESPACE] skips: space, tab, line feed, carriage
    return. *)
Definition is_ws (c : ascii) : bool :=
  let n := PyStr.code c in ((n =? 32) || (n =? 9) || (n =? 10) || (n =? 13))%N.

Fixpoint skip_ws (s : string) : string :=
  match s with
  | String c r => if is_ws c then skip_ws r else s
  | EmptyString => EmptyString
  end.

Definition hex_value (c : ascii) : option N :=
  let n := PyStr.code c in
  if ((48 <=? n) && (n <=? 57))%N then Some (n - 48)%N
  else if ((97 <=? n) && (n <=? 102))%N then Some (n - 87)%N
  else if ((65 <=? n) && (n <=? 70))%N then Some (n - 55)%N
  else None.

(** The four hexadecimal digits after [\u]. *)
Definition decode_uXXXX (a b c d : ascii) : result ascii :=
  match hex_value a, hex_value b, hex_value c, hex_value d with
  | Some x, Some y, Some z, Some w =>
      let n := (((x * 16 + y) * 16 + z) * 16 + w)%N in
      if (n <? 256)%N then Ok (ascii_of_N n) else Raise Unsupported
  | _, _, _, _ => Raise JSONDecodeError
  end.

(** [BACKSLASH] of [json.decoder] *)
Definition unescape (e : ascii) : option ascii :=
  let n := PyStr.code e in
  if (n =? 34)%N then Some dquote
  else if (n =? 92)%N then Some backslash
  else if (n =? 47)%N then Some "/"%char
  else if (n =? 98)%N then Some (ascii_of_N 8)
  else if (n =? 102)%N then Some (ascii_of_N 12)
  else if (n =? 110)%N then Some (ascii_of_N 10)
  else if (n =? 114)%N then Some (ascii_of_N 13)
  else if (n =? 116)%N then Some (ascii_of_N 9)
  else None.

(** [scanstring(s, end, strict=True)], from just after the opening
    quote: the text up to the closing quote, escapes decoded, and what
    follows the quote. A raw control character is refused. *)
Fixpoint scanstring (s : string) : result (string * string) :=
  match s with
  | EmptyString => Raise JSONDecodeError
  | String c r =>
      if Ascii.eqb c dquote then Ok (EmptyString, r)
      else if Ascii.eqb c backslash then
        match r with
        | EmptyString => Raise JSONDecodeError
        | String e r1 =>
            if Ascii.eqb e "u"%char then
              match r1 with
              | String h1 (String h2 (String h3 (String h4 r2))) =>
                  ch ← decode_uXXXX h1 h2 h3 h4;
                  out ← scanstring r2;
                  Ok (String ch (fst out), snd out)
              | _ => Raise JSONDecodeError
              end
            else
              match unescape e with
              | Some ch =>
                  out ← scanstring r1;
                  Ok (String ch (fst out), snd out)
              | None => Raise JSONDecodeError
              end
        end
      else if (PyStr.code c <? 32)%N then Raise JSONDecodeError
      else
        out ← scanstring r;
        Ok (String c (fst out), snd out)
  end.

(** The leading decimal digits of [s] and what follows them. *)
Fixpoint span_digits (s : string) : string * string :=
  match s with
  | String c r =>
      if PyStr.is_decimal c
      then let rest := span_digits r in (String c (fst rest), snd rest)
      else (EmptyString, s)
  | EmptyString => (EmptyString, EmptyString)
  end.

(** The integer part of [NUMBER_RE]: [0], or a non-zero digit and the
    digits after it. *)
Definition match_digits (s : string) : option (string * string) :=
  match s with
  | String c r =>
      if Ascii.eqb c "0"%char then Some ("0", r)
      else if PyStr.is_decimal c then Some (span_digits s)
      else None
  | EmptyString => None
  end.

Definition match_integer (s : string) : option (string * string) :=
  match s with
  | String "-"%char r =>
      match match_digits r with
      | Some (d, r') => Some (String "-"%char d, r')
      | None => None
      end
  | _ => match_digits s
  end.

Definition starts_with_digit (s : string) : bool :=
  match s with
  | String c _ => PyStr.is_decimal c
  | EmptyString => false
  end.

(** Whether the fraction or the exponent group of [NUMBER_RE] matches at
    [s]. *)
Definition float_follows (s : string) : bool :=
  match s with
  | String c r =>
      if Ascii.eqb c "."%char then starts_with_digit r
      else if Ascii.eqb c "e"%char || Ascii.eqb c "E"%char then
        match r with
        | String g r' =>
            if Ascii.eqb g "+"%char || Ascii.eqb g "-"%char
            then starts_with_digit r'
            else PyStr.is_decimal g
        | EmptyString => false
        end
      else false
  | EmptyString => false
  end.

(** [dict.__setitem__] on an insertion-ordered dict. *)
Fixpoint dict_set (k : string) (v : json) (d : list (string * json)) : list (string * json) :=
  match d with
  | [] => [(k, v)]
  | (k', v') :: rest =>
      if String.eqb k k' then (k', v) :: rest else (k', v') :: dict_set k v rest
  end.

(** [dict(pairs)] *)
Definition dict_of_pairs (pairs : list (string * json)) : list (string * json) :=
  fold_left (fun d kv => dict_set (fst kv) (snd kv) d) pairs [].

(** The end of [scan_once]: a number, or one of the three constants
    handed to [parse_constant], the hook of [json.loads]. *)
Definition scan_number (parse_constant : string -> result json) (s : string)
    : result (json * string) :=
  match match_integer s with
  | Some (integer, r1) =>
      if float_follows r1 then Raise Unsupported
      else
        n ← PyStr.int integer;
        Ok (JInt n, r1)
  | None =>
      if PyStr.startswith "NaN" s then
        v ← parse_constant "NaN";
        Ok (v, PyStr.drop 3 s)
      else if PyStr.startswith "Infinity" s then
        v ← parse_constant "Infinity";
        Ok (v, PyStr.drop 8 s)
      else if PyStr.startswith "-Infinity" s then
        v ← parse_constant "-Infinity";
        Ok (v, PyStr.drop 9 s)
      else Raise JSONDecodeError
  end.

(** [scan_once], [JSONArray] and [JSONObject]. [array_items] starts at
    the first item, [object_pairs] just after the opening quote of a key.
    [fuel] bounds the nesting and the number of items; [loads] gives more
    than the text can use. *)
Fixpoint scan_once (parse_constant : string -> result json) (fuel : nat) (s : string)
    {struct fuel} : result (json * string) :=
  match fuel with
  | O => Raise RecursionError
  | S f =>
      match s with
      | EmptyString => Raise JSONDecodeError
      | String c r =>
          if Ascii.eqb c dquote then
            out ← scanstring r;
            Ok (JStr (fst out), snd out)
          else if Ascii.eqb c "{"%char then
            match skip_ws r with
            | String c1 r1 =>
                if Ascii.eqb c1 "}"%char then Ok (JDict [], r1)
                else if Ascii.eqb c1 dquote then
                  out ← object_pairs parse_constant f r1;
                  Ok (JDict (dict_of_pairs (fst out)), snd out)
                else Raise JSONDecodeError
            | EmptyString => Raise JSONDecodeError
            end
          else if Ascii.eqb c "["%char then
            match skip_ws r with
            | String c1 r1 =>
                if Ascii.eqb c1 "]"%char then Ok (JList [], r1)
                else
                  out ← array_items parse_constant f (String c1 r1);
                  Ok (JList (fst out), snd out)
            | EmptyString => Raise JSONDecodeError
            end
          else if PyStr.startswith "null" s then Ok (JNull, PyStr.drop 4 s)
          else if PyStr.startswith "true" s then Ok (JBool true, PyStr.drop 4 s)
          else if PyStr.startswith "false" s then Ok (JBool false, PyStr.drop 5 s)
          else scan_number parse_constant s
      end
  end
with array_items (parse_constant : string -> result json) (fuel : nat) (s : string)
    {struct fuel} : result (list json * string) :=
  match fuel with
  | O => Raise RecursionError
  | S f =>
      out ← scan_once parse_constant f s;
      match skip_ws (snd out) with
      | String c r =>
          if Ascii.eqb c "]"%char then Ok ([fst out], r)
          else if Ascii.eqb c ","%char then
            more ← array_items parse_constant f (skip_ws r);
            Ok (fst out :: fst more, snd more)
          else Raise JSONDecodeError
      | EmptyString => Raise JSONDecodeError
      end
  end
with object_pairs (parse_constant : string -> result json) (fuel : nat) (s : string)
    {struct fuel} : result (list (string * json) * string) :=
  match fuel with
  | O => Raise RecursionError
  | S f =>
      key ← scanstring s;
      match skip_ws (snd key) with
      | String c r =>
          if Ascii.eqb c ":"%char then
            out ← scan_once parse_constant f (skip_ws r);
            match skip_ws (snd out) with
            | String c1 r1 =>
                if Ascii.eqb c1 "}"%char then Ok ([(fst key, fst out)], r1)
                else if Ascii.eqb c1 ","%char then
                  match skip_ws r1 with
                  | String c2 r2 =>
                      if Ascii.eqb c2 dquote then
                        more ← object_pairs parse_constant f r2;
                        Ok ((fst key, fst out) :: fst more, snd more)
                      else Raise JSONDecodeError
                  | EmptyString => Raise JSONDecodeError
                  end
                else Raise JSONDecodeError
            | EmptyString => Raise JSONDecodeError
            end
          else Raise JSONDecodeError
      | EmptyString => Raise JSONDecodeError
      end
  end.

(** The default hook: [NaN] is read as the float [nan]. *)
Definition python_constant (name : string) : result json :=
  if String.eqb name "NaN" then Ok JNaN else Raise Unsupported.

(** A hook that refuses the three names, which are not JSON (RFC 8259,
    section 6). *)
Definition reject_constant (name : string) : result json := Raise ValueError.

(** [json.loads(s, parse_constant=hook)] *)
Definition loads (parse_constant : string -> result json) (s : string) : result json :=
  out ← scan_once parse_constant (S (String.length s)) (skip_ws s);
  match skip_ws (snd out) with
  | EmptyString => Ok (fst out)
  | String _ _ => Raise JSONDecodeError
  end.

(** Whether the float [nan] occurs in a value. *)
Fixpoint has_nan (v : json) : bool :=
  match v with
  | JNaN => true
  | JList items => existsb has_nan items
  | JDict items => existsb (fun kv => has_nan (snd kv)) items
  | _ => false
  end.

(** The text may follow a value: it is empty or starts with a
    separator, a closing bracket or whitespace. *)
Definition delimited (s : string) : bool :=
  match s with
  | EmptyString => true
  | String c _ =>
      Ascii.eqb c ","%char || Ascii.eqb c "]"%char || Ascii.eqb c "}"%char || is_ws c
  end.

(** A decimal numeral that starts with a digit other than 0. *)
Definition nonzero_head (d : Decimal.uint) : bool :=
  match d with
  | Decimal.Nil | Decimal.D0 _ => false
  | _ => true
  end.

(** Fuel that [scan_once] needs to read a value back. *)
Fixpoint need (v : json) : nat :=
  match v with
  | JList items => S (list_sum (map (fun x => S (need x)) items))
  | JDict items => S (list_sum (map (fun kv => S (need (snd kv))) items))
  | _ => 1
  end.

Fixpoint distinct (keys : list string) : bool :=
  match keys with
  | [] => true
  | k :: rest => negb (existsb (String.eqb k) rest) && distinct rest
  end.

(** Whether no dict of a value holds a key twice, as is the case of
    every Python dict. *)
Fixpoint keys_distinct (v : json) : bool :=
  match v with
  | JList items => forallb keys_distinct items
  | JDict items =>
      distinct (map fst items) && forallb (fun kv => keys_distinct (snd kv)) items
  | _ => true
  end.

(** [scan_once] reads the serialized [v] back, whatever delimited text
    follows it, as soon as it has the fuel [need v]. *)
Definition reads_back (parse_constant : string -> result json) (v : json) : Prop :=
  forall f rest,
    (need v <= f)%nat -> delimited rest = true ->
    scan_once parse_constant f (dumps v ++ rest) = Ok (v, rest).

(** The text of one [key: value] pair of a dict. *)
Definition pair_text (kv : string * json) : string :=
  encode_basestring (fst kv) ++ ": " ++ dumps (snd kv).

End Json.

(** The line written for one document. *)
Definition output_line (doc : json) : string :=
  Json.dumps doc ++ String (ascii_of_N 10) EmptyString.

(** The whole pipeline on one row of a frame whose [event_city] column
    has the dtype [col]: the line, or the exception that stops the
    script. *)
Definition process_row (col : column_dtype) (r : Row) : result string :=
  e ← enrich r;
  Ok (output_line (create_mongo_document col e)).

(** ** Rows used in the statements below *)

(** A row with the same run and work seconds and other roxzone seconds. *)
Definition with_roxzone (rox : nat -> Z) (rox_total : Z) (row : Seconds) : Seconds :=
  {| total_time_seconds := total_time_seconds row;
     work_time_seconds := work_time_seconds row;
     roxzone_time_seconds := rox_total;
     run_time_seconds := run_time_seconds row;
     run_seconds := run_seconds row;
     work_seconds := work_seconds row;
     roxzone_seconds := rox |}.

(** The character [:] does not occur in [s]. *)
Fixpoint no_colon (s : string) : bool :=
  match s with
  | EmptyString => true
  | String c r => negb (Ascii.eqb c ":"%char) && no_colon r
  end.

(** A finisher of the Munich event: every column present. *)
Definition sample_row : Row :=
  {| event_id := Str "JGDMS4JI5C9";
     event_name := Str "S6 2023 M?nchen";
     gender := Str "male";
     nationality := Str "GER";
     age_group := Str "30-34";
     division := Str "open";
     total_time := Str "1:02:03";
     work_time := Str "0:32:00";
     roxzone_time := Str "0:04:00";
     run_time := Str "0:26:03";
     run := fun _ => Str "03:15";
     work := fun _ => Str "04:00";
     roxzone := fun _ => Str "00:30" |}.

(** The same athlete with the time of the third work station missing. *)
Definition sample_row_dnf : Row :=
  {| event_id := event_id sample_row;
     event_name := event_name sample_row;
     gender := gender sample_row;
     nationality := NaN;
     age_group := age_group sample_row;
     division := division sample_row;
     total_time := total_time sample_row;
     work_time := work_time sample_row;
     roxzone_time := roxzone_time sample_row;
     run_time := run_time sample_row;
     run := run sample_row;
     work := fun i => if (i =? 3)%nat then NaN else Str "04:00";
     roxzone := roxzone sample_row |}.

(** What [fix_event_name], [convert_times] and the other steps make of
    [sample_row_dnf]. *)
Definition sample_enriched_dnf : Enriched :=
  {| base := fill_missing (fix_event_name event_corrections sample_row_dnf);
     is_championship := false;
     event_year := Some 2023;
     event_city := Some "Munich";
     seconds := convert_times sample_row_dnf;
     is_valid := false |}.

Definition sample_enriched : Enriched :=
  {| base := fill_missing (fix_event_name event_corrections sample_row);
     is_championship := false;
     event_year := Some 2023;
     event_city := Some "Munich";
     seconds := convert_times sample_row;
     is_valid := true |}.

(** Four decimal digits stand in [s] right after the prefix [pre]. *)
Definition digits_at (pre : string) (a b c d : ascii) (s : string) : Prop :=
  (exists post, s = pre ++ String a (String b (String c (String d post))))
  /\ PyStr.is_decimal a && PyStr.is_decimal b && PyStr.is_decimal c && PyStr.is_decimal d = true.

(** A finisher of an event the correction table does not list, named
    World Championship. *)
Definition championship_row : Row :=
  {| event_id := Str "WCH23";
     event_name := Str "World Championship";
     gender := gender sample_row;
     nationality := nationality sample_row;
     age_group := age_group sample_row;
     division := division sample_row;
     total_time := total_time sample_row;
     work_time := work_time sample_row;
     roxzone_time := roxzone_time sample_row;
     run_time := run_time sample_row;
     run := run sample_row;
     work := work sample_row;
     roxzone := roxzone sample_row |}.

(** A finisher of an event the correction table does not list, whose
    regular name has two words, so no city: every text column present. *)
Definition sample_row_no_city : Row :=
  {| event_id := Str "HAM22";
     event_name := Str "Hamburg 2022";
     gender := gender sample_row;
     nationality := nationality sample_row;
     age_group := age_group sample_row;
     division := division sample_row;
     total_time := total_time sample_row;
     work_time := work_time sample_row;
     roxzone_time := roxzone_time sample_row;
     run_time := run_time sample_row;
     run := run sample_row;
     work := work sample_row;
     roxzone := roxzone sample_row |}.

Definition sample_enriched_no_city : Enriched :=
  {| base := fill_missing sample_row_no_city;
     is_championship := false;
     event_year := Some 2022;
     event_city := None;
     seconds := convert_times sample_row_no_city;
     is_valid := true |}.

(** ** The collection *)

(** The loop of step 9: one [f.write] per document, in order; the value
    is the text the loop has written once it has run. *)
Definition write_documents (docs : list json) : string :=
  fold_left (fun file doc => file ++ output_line doc) docs EmptyString.

(** ** Notions used in the further statements *)

(** Only whitespace, or nothing: [s.split() == []]. *)
Definition blank (s : string) : bool := PyStr.forallb_str PyStr.is_space s.

(** The test of the loop of [extract_city]. *)
Definition year_word (p : string) : bool := PyStr.isdigit p && (PyStr.len p =? 4)%nat.

(** The character [-] does not occur in [s]. *)
Fixpoint no_minus (s : string) : bool :=
  match s with
  | EmptyString => true
  | String c r => negb (Ascii.eqb c "-"%char) && no_minus r
  end.

(** The integer a document holds at a place, if it holds one. *)
Definition json_int (v : option json) : option Z :=
  match v with
  | Some (JInt n) => Some n
  | _ => None
  end.

(** [doc[k1][k2]] *)
Definition get2 (k1 k2 : string) (doc : json) : option json :=
  match get k1 doc with
  | Some inner => get k2 inner
  | None => None
  end.

(** The items of [doc['splits']]. *)
Definition splits_of (doc : json) : list json :=
  match get "splits" doc with
  | Some (JList items) => items
  | _ => []
  end.

(** The text columns a document copies with no default and no use
    before: the identifier, gender, division and the 28 times. *)
Definition text_cells (r : Row) : list cell :=
  ([ event_id r; gender r; division r;
     total_time r; work_time r; roxzone_time r; run_time r ]
   ++ flat_map (fun i => [run r i; work r i; roxzone r i]) (range 1 9))%list.

(** No character below U+0020 occurs in [s]. *)
Definition no_control (s : string) : bool :=
  PyStr.forallb_str (fun c => (32 <=? PyStr.code c)%N) s.

Definition newline : string := String (ascii_of_N 10) EmptyString.

(** A character [json.dumps] writes as it is when [ensure_ascii] is off:
    any but the quote, the backslash and the control characters. *)
Definition unescaped (c : ascii) : bool :=
  let n := PyStr.code c in ((32 <=? n) && negb (n =? 34) && negb (n =? 92))%N.

(** What [scan_once] does on the serialized [v], whatever delimited text
    follows it, when the hook raises [e] on [NaN]: it raises [e] if [v]
    holds a [nan] and reads [v] back if not. *)
Definition stops_at_nan (parse_constant : string -> result json) (e : exn) (v : json)
    : Prop :=
  forall f rest,
    (Json.need v <= f)%nat -> Json.delimited rest = true ->
    Json.scan_once parse_constant f (Json.dumps v ++ rest)
    = if Json.has_nan v then Raise e else Ok (v, rest).

(** A text that is not empty and does not start with whitespace. *)
Definition word_start (w : string) : bool :=
  match w with
  | EmptyString => false
  | String c _ => negb (PyStr.is_space c)
  end.

(** [s.split()[-1]], the empty text when there is no word. *)
Definition last_word (s : string) : string :=
  match rev (PyStr.split_ws s) with
  | w :: _ => w
  | [] => EmptyString
  end.

(** The test of the second rule of [extract_city]. *)
Definition championships_before_last (name : string) : bool :=
  PyStr.contains "Championships" name && negb (String.eqb (last_word name) "Championships").

(** * Properties *)

(** ** Characters and strings *)

Lemma colon_not_decimal c : PyStr.is_decimal c = true -> Ascii.eqb c ":"%char = false.
Proof.
  intros H. destruct (Ascii.eqb c ":"%char) eqn:E; [|reflexivity].
  apply Ascii.eqb_eq in E. subst c. discriminate H.
Qed.

Lemma colon_not_int_space c : PyStr.is_int_space c = true -> Ascii.eqb c ":"%char = false.
Proof.
  intros H. destruct (Ascii.eqb c ":"%char) eqn:E; [|reflexivity].
  apply Ascii.eqb_eq in E. subst c. discriminate H.
Qed.

Lemma no_colon_spaces s : PyStr.forallb_str PyStr.is_int_space s = true -> no_colon s = true.
Proof.
  induction s as [|c r IH]; simpl; [reflexivity|].
  intros [Hc Hr]%andb_true_iff. rewrite (colon_not_int_space c Hc). simpl. auto.
Qed.

Lemma no_colon_int_digits s : forall need acc z,
  PyStr.int_digits need acc s = Some z -> no_colon s = true.
Proof.
  induction s as [|c r IH]; intros need acc z; simpl; [reflexivity|].
  destruct (PyStr.is_decimal c) eqn:Hd.
  - intros H. rewrite (colon_not_decimal c Hd). simpl. eauto.
  - destruct need; [discriminate|].
    destruct (Ascii.eqb c "_"%char) eqn:Hu.
    + apply Ascii.eqb_eq in Hu. subst c. simpl. eauto.
    + destruct (PyStr.is_int_space c && PyStr.forallb_str PyStr.is_int_space r) eqn:Hs;
        [|discriminate].
      intros _. apply andb_true_iff in Hs as [Hc Hr].
      rewrite (colon_not_int_space c Hc). simpl. now apply no_colon_spaces.
Qed.

Lemma no_colon_lstrip s : no_colon (PyStr.lstrip_int s) = true -> no_colon s = true.
Proof.
  induction s as [|c r IH]; simpl; [reflexivity|].
  destruct (PyStr.is_int_space c) eqn:Hc.
  - intros H. rewrite (colon_not_int_space c Hc). simpl. auto.
  - simpl. auto.
Qed.

(** A text [int] accepts holds no colon. *)
Lemma no_colon_int s z : PyStr.int s = Ok z -> no_colon s = true.
Proof.
  unfold PyStr.int. intros H. apply no_colon_lstrip.
  destruct (PyStr.lstrip_int s) as [|c r] eqn:E; [reflexivity|].
  assert (Hgen : forall o : option Z,
             match o with Some z0 => Ok z0 | None => Raise ValueError end = Ok z ->
             exists z', o = Some z').
  { intros [z'|] Ho; [eauto | discriminate]. }
  destruct (Ascii.eqb c "+"%char) eqn:Hp; [apply Ascii.eqb_eq in Hp; subst c|].
  { apply Hgen in H as [z' H]. simpl. eapply no_colon_int_digits; eauto. }
  destruct (Ascii.eqb c "-"%char) eqn:Hm; [apply Ascii.eqb_eq in Hm; subst c|].
  { apply Hgen in H as [z' H]. simpl.
    destruct (PyStr.int_digits true 0 r) eqn:D; [|discriminate].
    eapply no_colon_int_digits; eauto. }
  assert (H' : exists z', PyStr.int_digits true 0 (String c r) = Some z').
  { apply Hgen. revert H.
    destruct c as [[] [] [] [] [] [] [] []]; try exact (fun h => h); discriminate. }
  destruct H' as [z' H']. eapply no_colon_int_digits; eauto.
Qed.

Lemma app_snoc cur c r : PyStr.snoc cur c ++ r = cur ++ String c r.
Proof.
  unfold PyStr.snoc. induction cur as [|a cur IH]; simpl; [reflexivity|].
  f_equal. exact IH.
Qed.

Lemma app_empty_r (s : string) : s ++ EmptyString = s.
Proof. induction s as [|a s IH]; simpl; [reflexivity | f_equal; exact IH]. Qed.

(** Splitting at [:] a text without colon gives the text itself. *)
Lemma split_go_no_colon b : forall cur,
  no_colon b = true -> PyStr.split_go ":" 0 cur b = [cur ++ b].
Proof.
  induction b as [|c r IH]; intros cur; simpl.
  - intros _. now rewrite app_empty_r.
  - intros [Hc Hr]%andb_true_iff. apply negb_true_iff in Hc.
    rewrite Ascii.eqb_sym, Hc. simpl. rewrite IH by assumption.
    now rewrite app_snoc.
Qed.

(** Splitting at [:] cuts at the first colon. *)
Lemma split_go_colon a : forall cur rest,
  no_colon a = true ->
  PyStr.split_go ":" 0 cur (a ++ String ":"%char rest)
  = (cur ++ a) :: PyStr.split_go ":" 0 EmptyString rest.
Proof.
  induction a as [|c r IH]; intros cur rest; simpl.
  - intros _. now rewrite app_empty_r.
  - intros [Hc Hr]%andb_true_iff. apply negb_true_iff in Hc.
    rewrite Ascii.eqb_sym, Hc. simpl. rewrite IH by assumption.
    now rewrite app_snoc.
Qed.

Lemma split_pair a b :
  no_colon a = true -> no_colon b = true ->
  PyStr.split ":" (a ++ ":" ++ b) = [a; b].
Proof.
  intros Ha Hb. unfold PyStr.split. simpl.
  rewrite split_go_colon by assumption. now rewrite split_go_no_colon.
Qed.

Lemma split_triple a b c :
  no_colon a = true -> no_colon b = true -> no_colon c = true ->
  PyStr.split ":" (a ++ ":" ++ b ++ ":" ++ c) = [a; b; c].
Proof.
  intros Ha Hb Hc. unfold PyStr.split. simpl.
  rewrite split_go_colon by assumption.
  rewrite split_go_colon by assumption. now rewrite split_go_no_colon.
Qed.

(** ** Durations *)

Lemma body_three t a b c h m s :
  PyStr.split ":" t = [a; b; c] ->
  PyStr.int a = Ok h -> PyStr.int b = Ok m -> PyStr.int c = Ok s ->
  time_to_seconds_body (Str t) = Ok (h * 3600 + m * 60 + s).
Proof.
  intros Hp Ha Hb Hc. unfold time_to_seconds_body. simpl py_str.
  rewrite Hp. simpl. rewrite Ha. simpl. rewrite Hb. simpl. now rewrite Hc.
Qed.

Lemma body_two t a b m s :
  PyStr.split ":" t = [a; b] ->
  PyStr.int a = Ok m -> PyStr.int b = Ok s ->
  time_to_seconds_body (Str t) = Ok (m * 60 + s).
Proof.
  intros Hp Ha Hb. unfold time_to_seconds_body. simpl py_str.
  rewrite Hp. simpl. rewrite Ha. simpl. now rewrite Hb.
Qed.

(** On a text the two guards of the first line only shortcut a result
    the [try] block gives as well. *)
Lemma time_to_seconds_text t :
  time_to_seconds (Str t) = try_except (time_to_seconds_body (Str t)) 0.
Proof.
  unfold time_to_seconds. simpl.
  destruct (String.eqb t "") eqn:E1.
  { apply String.eqb_eq in E1. now subst t. }
  destruct (String.eqb t "0:00:00") eqn:E2; [|reflexivity].
  apply String.eqb_eq in E2. now subst t.
Qed.

Lemma time_to_seconds_three t a b c h m s :
  PyStr.split ":" t = [a; b; c] ->
  PyStr.int a = Ok h -> PyStr.int b = Ok m -> PyStr.int c = Ok s ->
  time_to_seconds (Str t) = h * 3600 + m * 60 + s.
Proof.
  intros Hp Ha Hb Hc. rewrite time_to_seconds_text.
  now rewrite (body_three t a b c h m s).
Qed.

Lemma time_to_seconds_two t a b m s :
  PyStr.split ":" t = [a; b] ->
  PyStr.int a = Ok m -> PyStr.int b = Ok s ->
  time_to_seconds (Str t) = m * 60 + s.
Proof.
  intros Hp Ha Hb. rewrite time_to_seconds_text.
  now rewrite (body_two t a b m s).
Qed.

Lemma time_to_seconds_other_shape t :
  length (PyStr.split ":" t) <> 3%nat -> length (PyStr.split ":" t) <> 2%nat ->
  time_to_seconds (Str t) = 0.
Proof.
  intros H3 H2. rewrite time_to_seconds_text. unfold time_to_seconds_body.
  simpl py_str.
  destruct (Nat.eqb_spec (length (PyStr.split ":" t)) 3); [contradiction|].
  destruct (Nat.eqb_spec (length (PyStr.split ":" t)) 2); [contradiction|].
  reflexivity.
Qed.

Lemma time_to_seconds_unparsable t p e :
  In p (PyStr.split ":" t) -> PyStr.int p = Raise e ->
  time_to_seconds (Str t) = 0.
Proof.
  intros Hin Hp. rewrite time_to_seconds_text. unfold time_to_seconds_body.
  simpl py_str.
  destruct (PyStr.split ":" t) as [|a [|b [|c [|d l]]]]; try reflexivity.
  - simpl in *. destruct Hin as [->|[->|[]]].
    + now rewrite Hp.
    + destruct (PyStr.int a); simpl; [now rewrite Hp | reflexivity].
  - simpl in *. destruct Hin as [->|[->|[->|[]]]].
    + now rewrite Hp.
    + destruct (PyStr.int a); simpl; [now rewrite Hp | reflexivity].
    + destruct (PyStr.int a); simpl; [|reflexivity].
      destruct (PyStr.int b); simpl; [now rewrite Hp | reflexivity].
Qed.

(** C3. The duration parser returns an integer on every input: the
    weighted sum [h*3600+m*60+s] when the text splits at [:] into three
    parts that [int] reads, [m*60+s] when it splits into two, and 0 on a
    missing value, the empty text, the literal 0:00:00, any other number
    of parts and any part [int] refuses; the three examples of the
    specification evaluate to 3723, 2710 and 0. *)
Theorem time_to_seconds_spec :
  (forall t a b c h m s,
      PyStr.split ":" t = [a; b; c] ->
      PyStr.int a = Ok h -> PyStr.int b = Ok m -> PyStr.int c = Ok s ->
      time_to_seconds (Str t) = h * 3600 + m * 60 + s)
  /\ (forall t a b m s,
      PyStr.split ":" t = [a; b] ->
      PyStr.int a = Ok m -> PyStr.int b = Ok s ->
      time_to_seconds (Str t) = m * 60 + s)
  /\ time_to_seconds NaN = 0
  /\ time_to_seconds (Str "") = 0
  /\ time_to_seconds (Str "0:00:00") = 0
  /\ (forall t,
      length (PyStr.split ":" t) <> 3%nat -> length (PyStr.split ":" t) <> 2%nat ->
      time_to_seconds (Str t) = 0)
  /\ (forall t p e,
      In p (PyStr.split ":" t) -> PyStr.int p = Raise e ->
      time_to_seconds (Str t) = 0)
  /\ time_to_seconds (Str "1:02:03") = 3723
  /\ time_to_seconds (Str "45:10") = 2710
  /\ time_to_seconds (Str "not-a-time") = 0.
Proof.
  repeat split.
  - exact time_to_seconds_three.
  - exact time_to_seconds_two.
  - exact time_to_seconds_other_shape.
  - exact time_to_seconds_unparsable.
Qed.

Lemma time_to_seconds_spec_witness :
  time_to_seconds (Str "2:03:04") = 2 * 3600 + 3 * 60 + 4
  /\ time_to_seconds (Str "3:04") = 3 * 60 + 4
  /\ time_to_seconds (Str "1:2:3:4") = 0
  /\ time_to_seconds (Str "1:xx") = 0.
Proof.
  destruct time_to_seconds_spec as (H3 & H2 & _ & _ & _ & Hn & Hu & _).
  split; [|split; [|split]].
  - exact (H3 "2:03:04" "2" "03" "04" 2 3 4 eq_refl eq_refl eq_refl eq_refl).
  - exact (H2 "3:04" "3" "04" 3 4 eq_refl eq_refl eq_refl).
  - apply Hn; simpl; lia.
  - apply (Hu "1:xx" "xx" ValueError); [simpl; auto | reflexivity].
Defined.

(** C9. The duration parser checks neither range nor sign: two or three
    texts that [int] reads, joined by [:], give the weighted sum of their
    values whatever these are, so minutes or seconds of 60 and more are
    added as they stand, and a negative part gives a negative result, as
    on -1:30. *)
Theorem time_to_seconds_no_validation :
  (forall a b c h m s,
      PyStr.int a = Ok h -> PyStr.int b = Ok m -> PyStr.int c = Ok s ->
      time_to_seconds (Str (a ++ ":" ++ b ++ ":" ++ c)) = h * 3600 + m * 60 + s)
  /\ (forall a b m s,
      PyStr.int a = Ok m -> PyStr.int b = Ok s ->
      time_to_seconds (Str (a ++ ":" ++ b)) = m * 60 + s)
  /\ time_to_seconds (Str "1:75:90") = 1 * 3600 + 75 * 60 + 90
  /\ time_to_seconds (Str "90:61") = 90 * 60 + 61
  /\ time_to_seconds (Str "-1:30") = -30
  /\ time_to_seconds (Str "-1:30") < 0.
Proof.
  split; [|split].
  - intros a b c h m s Ha Hb Hc.
    apply (time_to_seconds_three _ a b c); try assumption.
    apply split_triple; eauto using no_colon_int.
  - intros a b m s Ha Hb.
    apply (time_to_seconds_two _ a b); try assumption.
    apply split_pair; eauto using no_colon_int.
  - repeat split.
Qed.

Lemma time_to_seconds_no_validation_witness :
  time_to_seconds (Str ("0" ++ ":" ++ "61" ++ ":" ++ "-7")) = 0 * 3600 + 61 * 60 + -7
  /\ time_to_seconds (Str ("-2" ++ ":" ++ "99")) = -2 * 60 + 99.
Proof.
  destruct time_to_seconds_no_validation as (H3 & H2 & _).
  split.
  - exact (H3 "0" "61" "-7" 0 61 (-7) eq_refl eq_refl eq_refl).
  - exact (H2 "-2" "99" (-2) 99 eq_refl eq_refl).
Defined.

(** C10. The test for the literal 0:00:00 is redundant: the parser
    without it returns the same value on every input. *)
Theorem time_to_seconds_literal_redundant :
  forall x : cell, time_to_seconds_no_literal x = time_to_seconds x.
Proof.
  intros [|t]; [reflexivity|].
  rewrite time_to_seconds_text. unfold time_to_seconds_no_literal. simpl.
  destruct (String.eqb t "") eqn:E; [|reflexivity].
  apply String.eqb_eq in E. now subst t.
Qed.

(** ** Completion *)

Lemma completion_loop_true row indices :
  completion_loop row indices = true <->
  forall i, In i indices -> 0 < run_seconds row i /\ 0 < work_seconds row i.
Proof.
  induction indices as [|i rest IH]; simpl.
  - split; [intros _ i [] | reflexivity].
  - destruct (Z.leb_spec (run_seconds row i) 0) as [Hr|Hr]; simpl.
    { split; [discriminate|]. intros H. destruct (H i (or_introl eq_refl)). lia. }
    destruct (Z.leb_spec (work_seconds row i) 0) as [Hw|Hw]; simpl.
    { split; [discriminate|]. intros H. destruct (H i (or_introl eq_refl)). lia. }
    rewrite IH. split.
    + intros H j [<-|Hj]; auto.
    + intros H j Hj. apply H. now right.
Qed.

Lemma in_range_1_9 i : In i (range 1 9) <-> (1 <= i <= 8)%nat.
Proof. unfold range. rewrite in_seq. lia. Qed.

Lemma completion_loop_ext row row' indices :
  (forall i, In i indices ->
     run_seconds row i = run_seconds row' i /\ work_seconds row i = work_seconds row' i) ->
  completion_loop row indices = completion_loop row' indices.
Proof.
  induction indices as [|i rest IH]; simpl; [reflexivity|].
  intros H. destruct (H i (or_introl eq_refl)) as [-> ->].
  rewrite IH; [reflexivity|]. intros j Hj. apply H. now right.
Qed.

(** C4. The completion check returns true exactly when the run and the
    work seconds of the eight splits are all strictly positive; one value
    that is 0 or less makes it false, whatever the splits after it hold;
    and the roxzone seconds play no part in the result. *)
Theorem check_valid_completion_spec :
  forall row : Seconds,
    (check_valid_completion row = true <->
     forall i, (1 <= i <= 8)%nat -> 0 < run_seconds row i /\ 0 < work_seconds row i)
    /\ (forall i, (1 <= i <= 8)%nat ->
        run_seconds row i <= 0 \/ work_seconds row i <= 0 ->
        check_valid_completion row = false)
    /\ (forall i rest,
        run_seconds row i <= 0 \/ work_seconds row i <= 0 ->
        completion_loop row (i :: rest) = false)
    /\ (forall rox rox_total,
        check_valid_completion (with_roxzone rox rox_total row)
        = check_valid_completion row).
Proof.
  intros row.
  assert (Hiff : check_valid_completion row = true <->
                 forall i, (1 <= i <= 8)%nat ->
                           0 < run_seconds row i /\ 0 < work_seconds row i).
  { unfold check_valid_completion. rewrite completion_loop_true.
    split; intros H i Hi; apply H; now apply in_range_1_9. }
  split; [exact Hiff|]. split; [|split].
  - intros i Hi Hbad. apply not_true_is_false. intros Ht.
    destruct (proj1 Hiff Ht i Hi). lia.
  - intros i rest Hbad. simpl.
    destruct (Z.leb_spec (run_seconds row i) 0); [reflexivity|].
    destruct (Z.leb_spec (work_seconds row i) 0); [reflexivity|]. lia.
  - intros rox rox_total. unfold check_valid_completion.
    apply completion_loop_ext. intros i _. split; reflexivity.
Qed.

(** ** Event names *)

Section Repair.

Variable corrections : gmap string string.

Lemma fix_event_name_id r : event_id (fix_event_name corrections r) = event_id r.
Proof.
  unfold fix_event_name. destruct (event_id r) as [|id] eqn:E; [exact E|].
  destruct (corrections !! id); simpl; exact E.
Qed.

Lemma set_event_name_twice n r :
  set_event_name n (set_event_name n r) = set_event_name n r.
Proof. reflexivity. Qed.

(** C8. Field repair replaces [event_name] by the mapped name exactly
    when the row's [event_id] is a key of the correction mapping, changes
    no other column, leaves the row as it is otherwise, and applied a
    second time changes nothing. *)
Theorem fix_event_name_spec :
  forall r : Row,
    (forall id name,
        event_id r = Str id -> corrections !! id = Some name ->
        fix_event_name corrections r = set_event_name (Str name) r
        /\ event_name (fix_event_name corrections r) = Str name)
    /\ (forall id,
        event_id r = Str id -> corrections !! id = None ->
        fix_event_name corrections r = r)
    /\ (event_id r = NaN -> fix_event_name corrections r = r)
    /\ fix_event_name corrections (fix_event_name corrections r)
       = fix_event_name corrections r.
Proof.
  intros r. split; [|split; [|split]].
  - intros id name Hid Hk. unfold fix_event_name. rewrite Hid, Hk. now split.
  - intros id Hid Hk. unfold fix_event_name. now rewrite Hid, Hk.
  - intros Hid. unfold fix_event_name. now rewrite Hid.
  - unfold fix_event_name at 1. rewrite fix_event_name_id.
    unfold fix_event_name. destruct (event_id r) as [|id] eqn:E; [reflexivity|].
    destruct (corrections !! id); reflexivity.
Qed.

End Repair.

Lemma fix_event_name_spec_witness :
  fix_event_name event_corrections sample_row
  = set_event_name (Str "S6 2023 Munich") sample_row
  /\ event_name (fix_event_name event_corrections sample_row) = Str "S6 2023 Munich".
Proof.
  exact (proj1 (fix_event_name_spec event_corrections sample_row)
           "JGDMS4JI5C9" "S6 2023 Munich" eq_refl eq_refl).
Defined.

(** ** City *)

Lemma city_loop_no_year parts rest i :
  (forall p, In p rest -> PyStr.isdigit p && (PyStr.len p =? 4)%nat = false) ->
  city_loop parts i rest None = None.
Proof.
  revert i. induction rest as [|part rest IH]; intros i H; simpl; [reflexivity|].
  rewrite (H part (or_introl eq_refl)). apply IH. intros p Hp. apply H. now right.
Qed.

(** Every championship name without separator, without Championships
    before its last word and without a word of four digits leaves [city]
    unbound. *)
Lemma extract_city_unbound_class name :
  PyStr.contains " - " name = false ->
  PyStr.contains "Championships" name = false
  \/ PyStr.last_item (PyStr.split_ws name) = Ok "Championships" ->
  (forall p, In p (PyStr.split_ws name) ->
     PyStr.isdigit p && (PyStr.len p =? 4)%nat = false) ->
  extract_city (Str name) true = Raise UnboundLocalError.
Proof.
  intros Hsep Hch Hyear. unfold extract_city. rewrite Hsep.
  destruct (PyStr.contains "Championships" name) eqn:E.
  - destruct Hch as [Hch|Hch]; [discriminate|]. rewrite Hch. simpl.
    now rewrite city_loop_no_year.
  - simpl. now rewrite city_loop_no_year.
Qed.

(** C1. On the championship name World Championship, which has no
    separator, no Championships token and no token of four digits, the
    loop of [extract_city] never binds [city] and [return city] raises
    [UnboundLocalError], which stops the pipeline on that row: the
    derivation is not total. A championship name that starts with the
    separator raises [IndexError] in the first rule. *)
Theorem extract_city_unbound :
  championship_flag (Str "World Championship") = true
  /\ extract_city (Str "World Championship") true = Raise UnboundLocalError
  /\ enrich championship_row = Raise UnboundLocalError
  /\ (forall col, process_row col championship_row = Raise UnboundLocalError)
  /\ extract_city (Str " - World Championship")
       (championship_flag (Str " - World Championship"))
     = Raise IndexError.
Proof. split; [|split; [|split; [|split]]]; try intros col; vm_compute; reflexivity. Qed.

(** C2, as the specification states it, fails on its first name: the
    city read from 2023 European Championship - Berlin is not Berlin. *)
Lemma extract_city_not_berlin :
  extract_city (Str "2023 European Championship - Berlin")
    (championship_flag (Str "2023 European Championship - Berlin"))
  <> Ok (Some "Berlin").
Proof. discriminate. Qed.

(** C2, amended. On the championship name 2023 European Championship -
    Berlin the city is the last of the first three words before the
    separator, Championship; on Hyrox Elite Championships Paris it is
    Paris; on the regular name S6 2023 Munich it is Munich. *)
Theorem extract_city_examples :
  extract_city (Str "2023 European Championship - Berlin")
    (championship_flag (Str "2023 European Championship - Berlin"))
  = Ok (Some "Championship")
  /\ extract_city (Str "Hyrox Elite Championships Paris")
       (championship_flag (Str "Hyrox Elite Championships Paris"))
     = Ok (Some "Paris")
  /\ championship_flag (Str "S6 2023 Munich") = false
  /\ extract_city (Str "S6 2023 Munich") (championship_flag (Str "S6 2023 Munich"))
     = Ok (Some "Munich").
Proof. split; [|split; [|split]]; vm_compute; reflexivity. Qed.

(** ** Document *)

(** C6. The document of every row has a [splits] list of exactly eight
    entries, whose [split_number] values are 1 to 8 in this order. *)
Theorem create_mongo_document_splits :
  forall (col : column_dtype) (row : Enriched),
  exists splits,
    get "splits" (create_mongo_document col row) = Some (JList splits)
    /\ length splits = 8%nat
    /\ map (get "split_number") splits
       = map (fun i => Some (JInt i)) [1; 2; 3; 4; 5; 6; 7; 8].
Proof.
  intros col row. eexists. split; [reflexivity|]. split; reflexivity.
Qed.

(** ** Year *)

Lemma search_d4_short s : (String.length s < 4)%nat -> PyStr.search_d4 s = None.
Proof.
  destruct s as [|a [|b [|c [|d r]]]]; simpl; try reflexivity. lia.
Qed.

Lemma search_d4_step a b c d r :
  PyStr.search_d4 (String a (String b (String c (String d r))))
  = if PyStr.is_decimal a && PyStr.is_decimal b && PyStr.is_decimal c && PyStr.is_decimal d
    then Some (String a (String b (String c (String d EmptyString))))
    else PyStr.search_d4 (String b (String c (String d r))).
Proof. reflexivity. Qed.

Lemma length_app (s t : string) : String.length (s ++ t) = (String.length s + String.length t)%nat.
Proof. induction s as [|x s IH]; simpl; [reflexivity | now rewrite IH]. Qed.

Lemma digits_at_length pre a b c d s :
  digits_at pre a b c d s -> (String.length pre + 4 <= String.length s)%nat.
Proof. intros [[post ->] _]. rewrite length_app. simpl. lia. Qed.

Lemma digits_at_cons x pre a b c d s :
  digits_at (String x pre) a b c d (String x s) <-> digits_at pre a b c d s.
Proof.
  unfold digits_at. split; intros [[post H] Hd]; (split; [exists post|exact Hd]).
  - simpl in H. now inversion H.
  - simpl. now rewrite H.
Qed.

Lemma digits_at_head pre a b c d x s :
  digits_at pre a b c d (String x s) ->
  pre = EmptyString \/ exists pre', pre = String x pre' /\ digits_at pre' a b c d s.
Proof.
  destruct pre as [|y pre']; [now left|].
  intros H. right. exists pre'.
  assert (y = x) as ->. { destruct H as [[post H] _]. simpl in H. now inversion H. }
  split; [reflexivity|]. exact (proj1 (digits_at_cons _ _ _ _ _ _ _) H).
Qed.

Lemma digits_at_start a' b' c' d' a b c d r :
  digits_at EmptyString a' b' c' d' (String a (String b (String c (String d r)))) ->
  PyStr.is_decimal a && PyStr.is_decimal b && PyStr.is_decimal c && PyStr.is_decimal d = true.
Proof. intros [[post H] Hd]. simpl in H. inversion H. now subst. Qed.

(** [search_d4] returns the leftmost run of four decimal digits, and
    [None] only when there is none. *)
Lemma search_d4_spec s :
  match PyStr.search_d4 s with
  | Some t =>
      exists pre a b c d,
        t = String a (String b (String c (String d EmptyString)))
        /\ digits_at pre a b c d s
        /\ forall pre' a' b' c' d',
             digits_at pre' a' b' c' d' s -> (String.length pre <= String.length pre')%nat
  | None => forall pre a b c d, ~ digits_at pre a b c d s
  end.
Proof.
  induction s as [|a s IH].
  { simpl. intros pre a b c d H%digits_at_length. simpl in H. lia. }
  destruct s as [|b [|c [|d r]]];
    try (rewrite search_d4_short by (simpl; lia);
         intros pre a' b' c' d' H%digits_at_length; simpl in H; lia).
  rewrite search_d4_step.
  destruct (PyStr.is_decimal a && PyStr.is_decimal b && PyStr.is_decimal c && PyStr.is_decimal d)
    eqn:Hd.
  - exists EmptyString, a, b, c, d. split; [reflexivity|]. split.
    + split; [exists r; reflexivity | exact Hd].
    + intros. simpl. lia.
  - destruct (PyStr.search_d4 (String b (String c (String d r)))) as [t|].
    + destruct IH as (pre & a1 & b1 & c1 & d1 & -> & Hat & Hleft).
      exists (String a pre), a1, b1, c1, d1. split; [reflexivity|]. split.
      * exact (proj2 (digits_at_cons _ _ _ _ _ _ _) Hat).
      * intros pre' a' b' c' d' H.
        destruct (digits_at_head _ _ _ _ _ _ _ H) as [->|(p & -> & H')].
        -- apply digits_at_start in H. congruence.
        -- simpl. apply Hleft in H'. lia.
    + intros pre a' b' c' d' H.
      destruct (digits_at_head _ _ _ _ _ _ _ H) as [->|(p & -> & H')].
      * apply digits_at_start in H. congruence.
      * now apply IH in H'.
Qed.

Lemma decimal_value_4 a b c d :
  decimal_value 0 (String a (String b (String c (String d EmptyString))))
  = 1000 * PyStr.digit_value a + 100 * PyStr.digit_value b
    + 10 * PyStr.digit_value c + PyStr.digit_value d.
Proof. simpl. lia. Qed.

(** C7, as stated, fails: in Hyrox 12345 Berlin no whitespace-delimited
    token has exactly four digits, and the year is 1234, not null. *)
Lemma extract_year_not_first_token :
  extract_year (Str "Hyrox 12345 Berlin")
  <> option_map (decimal_value 0)
       (List.find (fun p => PyStr.forallb_str PyStr.is_decimal p && (PyStr.len p =? 4)%nat)
          (PyStr.split_ws "Hyrox 12345 Berlin")).
Proof. vm_compute. discriminate. Qed.

(** C7, amended. [event_year] is the value of the leftmost four
    consecutive decimal digits of [event_name], wherever they stand in it
    (inside a longer token as well), and null when the name has no four
    consecutive decimal digits or is missing. *)
Theorem extract_year_spec :
  forall name : string,
    match extract_year (Str name) with
    | Some y =>
        exists pre a b c d,
          digits_at pre a b c d name
          /\ y = 1000 * PyStr.digit_value a + 100 * PyStr.digit_value b
                 + 10 * PyStr.digit_value c + PyStr.digit_value d
          /\ forall pre' a' b' c' d',
               digits_at pre' a' b' c' d' name ->
               (String.length pre <= String.length pre')%nat
    | None => forall pre a b c d, ~ digits_at pre a b c d name
    end
    /\ extract_year NaN = None.
Proof.
  intros name. split; [|reflexivity].
  unfold extract_year, extract_year_text, astype_Int64.
  pose proof (search_d4_spec name) as H.
  destruct (PyStr.search_d4 name) as [t|]; simpl; [|exact H].
  destruct H as (pre & a & b & c & d & -> & Hat & Hleft).
  exists pre, a, b, c, d. split; [exact Hat|]. split; [|exact Hleft].
  apply decimal_value_4.
Qed.

Example extract_year_munich : extract_year (Str "S6 2023 Munich") = Some 2023.
Proof. reflexivity. Qed.

(** ** The output line read back *)

Lemma append_assoc (a b c : string) : (a ++ b) ++ c = a ++ (b ++ c).
Proof. induction a as [|x a IH]; simpl; [reflexivity | now rewrite IH]. Qed.

(** Scanning the replacement of one character gives the character back. *)
Lemma scanstring_escape_char c tail :
  Json.scanstring (Json.escape_char c ++ tail)
  = rbind (Json.scanstring tail) (fun out => Ok (String c (fst out), snd out)).
Proof.
  destruct c as [[] [] [] [] [] [] [] []]; reflexivity.
Qed.

Lemma scanstring_escape s tail :
  Json.scanstring (Json.escape s ++ String Json.dquote tail) = Ok (s, tail).
Proof.
  induction s as [|c s IH]; [reflexivity|].
  simpl Json.escape. rewrite append_assoc, scanstring_escape_char, IH. reflexivity.
Qed.

(** No character of 128 and above, and no printable ASCII character but
    the quote and the backslash, is replaced. *)
Lemma escape_char_plain c :
  (32 <= PyStr.code c)%N -> PyStr.code c <> 34%N -> PyStr.code c <> 92%N ->
  Json.escape_char c = String c EmptyString.
Proof.
  intros H32 H34 H92. unfold Json.escape_char.
  repeat match goal with
         | |- context [(?a =? ?b)%N] => destruct (N.eqb_spec a b); [lia|]
         end.
  destruct (N.ltb_spec (PyStr.code c) 32); [lia | reflexivity].
Qed.

Lemma enrich_sample_dnf : enrich sample_row_dnf = Ok sample_enriched_dnf.
Proof. reflexivity. Qed.

Lemma enrich_sample : enrich sample_row = Ok sample_enriched.
Proof. reflexivity. Qed.

(** *** Integers *)

Lemma int_digits_acc d : forall acc need tail,
  PyStr.int_digits need (Z.pos acc) (NilEmpty.string_of_uint d ++ tail)
  = match d with
    | Decimal.Nil => PyStr.int_digits need (Z.pos acc) tail
    | _ => PyStr.int_digits false (Z.pos (Pos.of_uint_acc d acc)) tail
    end.
Proof.
  induction d as [|d IH|d IH|d IH|d IH|d IH|d IH|d IH|d IH|d IH|d IH];
    intros acc need tail; [reflexivity|..];
    cbn [NilEmpty.string_of_uint String.append PyStr.int_digits];
    match goal with
    | |- context [PyStr.is_decimal ?c] =>
        change (PyStr.is_decimal c) with true; cbv iota;
        let v := eval vm_compute in (PyStr.digit_value c) in
        change (PyStr.digit_value c) with v
    end;
    cbn [Pos.of_uint_acc];
    match goal with
    | |- PyStr.int_digits false ?x _
         = PyStr.int_digits false (Z.pos (Pos.of_uint_acc d ?p)) tail =>
        replace x with (Z.pos p) by lia
    end;
    rewrite IH; destruct d; reflexivity.
Qed.

Lemma int_digits_zero d : forall need tail,
  PyStr.int_digits need 0 (NilEmpty.string_of_uint d ++ tail)
  = match d with
    | Decimal.Nil => PyStr.int_digits need 0 tail
    | _ => PyStr.int_digits false (Z.of_N (Pos.of_uint d)) tail
    end.
Proof.
  induction d as [|d IH|d IH|d IH|d IH|d IH|d IH|d IH|d IH|d IH|d IH];
    intros need tail; [reflexivity|..];
    cbn [NilEmpty.string_of_uint String.append PyStr.int_digits];
    match goal with
    | |- context [PyStr.is_decimal ?c] =>
        change (PyStr.is_decimal c) with true; cbv iota;
        let v := eval vm_compute in (PyStr.digit_value c) in
        change (PyStr.digit_value c) with v
    end.
  { rewrite IH. cbn [Pos.of_uint]. destruct d; reflexivity. }
  all: match goal with
       | |- PyStr.int_digits false ?x _ = _ =>
           let v := eval vm_compute in x in change x with v
       end;
       rewrite int_digits_acc; cbn [Pos.of_uint Z.of_N];
       destruct d; reflexivity.
Qed.

Lemma to_uint_nonzero_head p : Json.nonzero_head (Pos.to_uint p) = true.
Proof.
  destruct (Pos.to_uint p) as [|d| | | | | | | | |] eqn:E; try reflexivity.
  - now apply DecimalPos.Unsigned.to_uint_nonnil in E.
  - exfalso.
    pose proof (DecimalPos.Unsigned.to_of (Pos.to_uint p)) as H.
    rewrite DecimalPos.Unsigned.of_to in H. cbn [N.to_uint] in H.
    rewrite E in H. rewrite DecimalFacts.unorm_D0 in H.
    destruct (Decimal.nzhead d) eqn:Hn;
      [ unfold Decimal.unorm in H; rewrite Hn in H; rewrite <- E in H;
        now apply DecimalPos.Unsigned.to_uint_nonzero in H
      | rewrite DecimalFacts.unorm_nzhead in H by (rewrite Hn; discriminate);
        symmetry in H; now apply DecimalFacts.nzhead_nonzero in H .. ].
Qed.

Lemma int_decimal_head c r :
  PyStr.is_decimal c = true ->
  PyStr.int (String c r)
  = match PyStr.int_digits true 0 (String c r) with
    | Some z => Ok z
    | None => Raise ValueError
    end.
Proof. destruct c as [[] [] [] [] [] [] [] []]; intros H; try discriminate H; reflexivity. Qed.

Lemma int_minus_head r :
  PyStr.int (String "-"%char r)
  = match option_map Z.opp (PyStr.int_digits true 0 r) with
    | Some z => Ok z
    | None => Raise ValueError
    end.
Proof. reflexivity. Qed.

Lemma uint_head d :
  d <> Decimal.Nil ->
  exists c r, NilEmpty.string_of_uint d = String c r /\ PyStr.is_decimal c = true.
Proof. destruct d; intros H; [contradiction|..]; eexists _, _; split; reflexivity. Qed.

Lemma int_digits_uint d :
  d <> Decimal.Nil ->
  PyStr.int_digits true 0 (NilEmpty.string_of_uint d) = Some (Z.of_N (Pos.of_uint d)).
Proof.
  intros H. rewrite <- (app_empty_r (NilEmpty.string_of_uint d)).
  rewrite int_digits_zero. destruct d; [contradiction|..]; reflexivity.
Qed.

(** [int(repr(n)) == n] *)
Lemma int_int_repr z : PyStr.int (Json.int_repr z) = Ok z.
Proof.
  unfold Json.int_repr. destruct z as [|p|p]; [reflexivity|..];
    cbn [Z.to_int NilZero.string_of_int];
    pose proof (DecimalPos.Unsigned.to_uint_nonnil p) as Hn;
    pose proof (DecimalPos.Unsigned.of_to p) as Hv;
    assert (Hs : NilZero.string_of_uint (Pos.to_uint p)
                 = NilEmpty.string_of_uint (Pos.to_uint p))
      by (destruct (Pos.to_uint p); [contradiction|..]; reflexivity);
    rewrite Hs.
  - destruct (uint_head _ Hn) as (c & r & E & Hc).
    rewrite E, (int_decimal_head c r Hc), <- E, (int_digits_uint _ Hn), Hv. reflexivity.
  - rewrite int_minus_head, (int_digits_uint _ Hn), Hv. reflexivity.
Qed.

Lemma span_digits_stop rest :
  Json.starts_with_digit rest = false -> Json.span_digits rest = (EmptyString, rest).
Proof. destruct rest as [|c r]; simpl; [reflexivity|]. now intros ->. Qed.

Lemma span_digits_uint d rest :
  Json.starts_with_digit rest = false ->
  Json.span_digits (NilEmpty.string_of_uint d ++ rest) = (NilEmpty.string_of_uint d, rest).
Proof.
  intros H.
  induction d as [|d IH|d IH|d IH|d IH|d IH|d IH|d IH|d IH|d IH|d IH];
    [now apply span_digits_stop|..];
    cbn [NilEmpty.string_of_uint String.append Json.span_digits];
    match goal with
    | |- context [PyStr.is_decimal ?c] => change (PyStr.is_decimal c) with true
    end;
    cbv iota; rewrite IH; reflexivity.
Qed.

Lemma match_digits_uint d rest :
  Json.nonzero_head d = true -> Json.starts_with_digit rest = false ->
  Json.match_digits (NilEmpty.string_of_uint d ++ rest)
  = Some (NilEmpty.string_of_uint d, rest).
Proof.
  intros Hd Hr. rewrite <- (span_digits_uint d rest Hr).
  destruct d; try discriminate Hd; reflexivity.
Qed.

Lemma match_integer_repr z rest :
  Json.starts_with_digit rest = false ->
  Json.match_integer (Json.int_repr z ++ rest) = Some (Json.int_repr z, rest).
Proof.
  intros Hr. unfold Json.int_repr. destruct z as [|p|p]; [reflexivity|..];
    cbn [Z.to_int NilZero.string_of_int];
    pose proof (to_uint_nonzero_head p) as Hh;
    assert (Hs : NilZero.string_of_uint (Pos.to_uint p)
                 = NilEmpty.string_of_uint (Pos.to_uint p))
      by (destruct (Pos.to_uint p); try discriminate Hh; reflexivity);
    rewrite Hs.
  - pose proof (match_digits_uint _ rest Hh Hr) as H.
    destruct (Pos.to_uint p); try discriminate Hh; exact H.
  - cbn [String.append Json.match_integer].
    now rewrite (match_digits_uint _ rest Hh Hr).
Qed.

(** *** Values *)

Lemma delimited_stops rest :
  Json.delimited rest = true ->
  Json.starts_with_digit rest = false /\ Json.float_follows rest = false.
Proof.
  destruct rest as [|c r]; [now split|].
  destruct c as [[] [] [] [] [] [] [] []]; intros H; try discriminate H; now split.
Qed.

Lemma scan_once_string pc f r :
  Json.scan_once pc (S f) (String Json.dquote r)
  = rbind (Json.scanstring r) (fun out => Ok (JStr (fst out), snd out)).
Proof. reflexivity. Qed.

Lemma scan_once_number pc f c r :
  PyStr.is_decimal c || Ascii.eqb c "-"%char = true ->
  Json.scan_once pc (S f) (String c r) = Json.scan_number pc (String c r).
Proof.
  destruct c as [[] [] [] [] [] [] [] []]; intros H; try discriminate H; reflexivity.
Qed.

Lemma number_head_plain c :
  PyStr.is_decimal c || Ascii.eqb c "-"%char = true ->
  Json.is_ws c = false /\ Ascii.eqb c "]"%char = false.
Proof.
  destruct c as [[] [] [] [] [] [] [] []]; intros H; try discriminate H; now split.
Qed.

Lemma int_repr_head z :
  exists c r, Json.int_repr z = String c r
              /\ PyStr.is_decimal c || Ascii.eqb c "-"%char = true.
Proof.
  unfold Json.int_repr. destruct z as [|p|p]; cbn [Z.to_int NilZero.string_of_int].
  - eexists _, _. split; reflexivity.
  - pose proof (to_uint_nonzero_head p) as Hh.
    destruct (Pos.to_uint p); try discriminate Hh; eexists _, _; split; reflexivity.
  - eexists _, _. split; reflexivity.
Qed.

Lemma scan_once_int pc f z rest :
  Json.delimited rest = true ->
  Json.scan_once pc (S f) (Json.int_repr z ++ rest) = Ok (JInt z, rest).
Proof.
  intros [Hd Hf]%delimited_stops.
  destruct (int_repr_head z) as (c & r & E & Hc).
  rewrite E. cbn [String.append]. rewrite (scan_once_number pc f c _ Hc).
  change (String c (r ++ rest)) with (String c r ++ rest). rewrite <- E.
  unfold Json.scan_number. rewrite (match_integer_repr z rest Hd), Hf, int_int_repr.
  reflexivity.
Qed.

(** A serialized value starts with a character that is neither
    whitespace nor a closing bracket. *)
Lemma dumps_head v t :
  exists c r, Json.dumps v ++ t = String c r
              /\ Json.is_ws c = false /\ Ascii.eqb c "]"%char = false.
Proof.
  destruct v as [|[]|z| |s|items|items]; cbn [Json.dumps];
    try (eexists _, _; split; [reflexivity | split; reflexivity]).
  destruct (int_repr_head z) as (c & r & E & Hc). rewrite E.
  exists c, (r ++ t). split; [reflexivity|]. now apply number_head_plain.
Qed.

Lemma skip_ws_dumps v t : Json.skip_ws (Json.dumps v ++ t) = Json.dumps v ++ t.
Proof.
  destruct (dumps_head v t) as (c & r & -> & Hw & _). simpl. now rewrite Hw.
Qed.

(** *** Dicts *)

Lemma dict_set_fresh k v d :
  existsb (String.eqb k) (map fst d) = false ->
  Json.dict_set k v d = (d ++ [(k, v)])%list.
Proof.
  induction d as [|[k' v'] d IH]; simpl; [reflexivity|].
  intros [Hk Hd]%orb_false_iff. rewrite Hk, IH by assumption. reflexivity.
Qed.

Lemma distinct_app_fresh acc k rest :
  Json.distinct (acc ++ k :: rest)%list = true ->
  existsb (String.eqb k) acc = false.
Proof.
  induction acc as [|x acc IH]; simpl; [reflexivity|].
  intros [Hx Hd]%andb_true_iff. rewrite (IH Hd), orb_false_r.
  apply negb_true_iff in Hx. rewrite existsb_app in Hx.
  apply orb_false_iff in Hx as [_ Hx]. simpl in Hx.
  apply orb_false_iff in Hx as [Hx _]. now rewrite String.eqb_sym.
Qed.

Lemma fold_dict_set_distinct l : forall acc,
  Json.distinct (map fst (acc ++ l)%list) = true ->
  fold_left (fun d kv => Json.dict_set (fst kv) (snd kv) d) l acc = (acc ++ l)%list.
Proof.
  induction l as [|[k v] l IH]; intros acc H; simpl.
  - now rewrite app_nil_r.
  - rewrite dict_set_fresh.
    + rewrite IH; rewrite <- app_assoc; [reflexivity | exact H].
    + rewrite map_app in H. simpl in H. now apply distinct_app_fresh in H.
Qed.

Lemma dict_of_pairs_distinct l :
  Json.distinct (map fst l) = true -> Json.dict_of_pairs l = l.
Proof. intros H. unfold Json.dict_of_pairs. now rewrite fold_dict_set_distinct. Qed.

(** *** Lists and dicts of values *)

Lemma array_items_eq pc f s :
  Json.array_items pc (S f) s
  = rbind (Json.scan_once pc f s) (fun out =>
      match Json.skip_ws (snd out) with
      | String c r =>
          if Ascii.eqb c "]"%char then Ok ([fst out], r)
          else if Ascii.eqb c ","%char then
            rbind (Json.array_items pc f (Json.skip_ws r)) (fun more =>
              Ok (fst out :: fst more, snd more))
          else Raise JSONDecodeError
      | EmptyString => Raise JSONDecodeError
      end).
Proof. reflexivity. Qed.

Lemma object_pairs_eq pc f s :
  Json.object_pairs pc (S f) s
  = rbind (Json.scanstring s) (fun key =>
      match Json.skip_ws (snd key) with
      | String c r =>
          if Ascii.eqb c ":"%char then
            rbind (Json.scan_once pc f (Json.skip_ws r)) (fun out =>
              match Json.skip_ws (snd out) with
              | String c1 r1 =>
                  if Ascii.eqb c1 "}"%char then Ok ([(fst key, fst out)], r1)
                  else if Ascii.eqb c1 ","%char then
                    match Json.skip_ws r1 with
                    | String c2 r2 =>
                        if Ascii.eqb c2 Json.dquote then
                          rbind (Json.object_pairs pc f r2) (fun more =>
                            Ok ((fst key, fst out) :: fst more, snd more))
                        else Raise JSONDecodeError
                    | EmptyString => Raise JSONDecodeError
                    end
                  else Raise JSONDecodeError
              | EmptyString => Raise JSONDecodeError
              end)
          else Raise JSONDecodeError
      | EmptyString => Raise JSONDecodeError
      end).
Proof. reflexivity. Qed.

Lemma concat_cons2 sep (x y : string) l :
  String.concat sep (x :: y :: l) = x ++ sep ++ String.concat sep (y :: l).
Proof. reflexivity. Qed.

Lemma skip_ws_space r : Json.skip_ws (String " "%char r) = Json.skip_ws r.
Proof. reflexivity. Qed.

Lemma skip_ws_plain c r : Json.is_ws c = false -> Json.skip_ws (String c r) = String c r.
Proof. intros H. simpl. now rewrite H. Qed.

(** Reads the next character of the text, which is known and is not
    whitespace, and decides the tests on it. *)
Ltac next_char :=
  rewrite skip_ws_plain by reflexivity;
  cbv iota; cbn [Ascii.eqb Bool.eqb andb]; cbv iota.

Lemma string_cons_inj c (a b : string) : String c a = String c b -> a = b.
Proof. now intros [= ->]. Qed.

Section ReadBack.

Variable pc : string -> result json.

Lemma array_items_dumps items : forall v0 f rest,
  Json.reads_back pc v0 -> Forall (Json.reads_back pc) items ->
  (list_sum (map (fun x => S (Json.need x)) (v0 :: items)) <= f)%nat ->
  Json.array_items pc f (String.concat ", " (map Json.dumps (v0 :: items)) ++ String "]"%char rest)
  = Ok (v0 :: items, rest).
Proof.
  induction items as [|v1 more IH]; intros v0 f rest H0 Hall Hf;
    (destruct f as [|f]; [simpl in Hf; lia|]); rewrite array_items_eq.
  - cbn [map String.concat]. rewrite H0; [| simpl in Hf; lia | reflexivity].
    cbn [rbind fst snd]. next_char. reflexivity.
  - cbn [map]. rewrite concat_cons2, append_assoc.
    rewrite H0; [| simpl in Hf; lia | reflexivity].
    cbn [rbind fst snd String.append]. next_char. rewrite skip_ws_space.
    inversion Hall as [|? ? H1 Hmore]; subst.
    change (Json.dumps v1 :: map Json.dumps more) with (map Json.dumps (v1 :: more)).
    assert (Hskip : forall t, Json.skip_ws (String.concat ", " (map Json.dumps (v1 :: more)) ++ t)
                              = String.concat ", " (map Json.dumps (v1 :: more)) ++ t).
    { intros t. destruct more as [|v2 more'].
      - apply skip_ws_dumps.
      - cbn [map]. rewrite concat_cons2, append_assoc. apply skip_ws_dumps. }
    rewrite Hskip.
    rewrite (IH v1 f rest H1 Hmore); [reflexivity|].
    simpl in Hf. simpl. lia.
Qed.

Lemma pair_text_app kv t :
  Json.pair_text kv ++ t
  = String Json.dquote
      (Json.escape (fst kv) ++ String Json.dquote (String ":"%char (String " "%char
         (Json.dumps (snd kv) ++ t)))).
Proof.
  unfold Json.pair_text, Json.encode_basestring.
  cbn [String.append]. rewrite !append_assoc. reflexivity.
Qed.

Lemma object_pairs_dumps items : forall kv0 f rest body,
  Json.reads_back pc (snd kv0) ->
  Forall (fun kv => Json.reads_back pc (snd kv)) items ->
  (list_sum (map (fun kv => S (Json.need (snd kv))) (kv0 :: items)) <= f)%nat ->
  String.concat ", " (map Json.pair_text (kv0 :: items)) ++ String "}"%char rest
  = String Json.dquote body ->
  Json.object_pairs pc f body = Ok (kv0 :: items, rest).
Proof.
  induction items as [|kv1 more IH]; intros kv0 f rest body H0 Hall Hf Hbody;
    (destruct f as [|f]; [simpl in Hf; lia|]); rewrite object_pairs_eq.
  - cbn [map String.concat] in Hbody. rewrite pair_text_app in Hbody.
    apply string_cons_inj in Hbody. subst body. rewrite scanstring_escape.
    cbn [rbind fst snd]. next_char. rewrite skip_ws_space, skip_ws_dumps.
    rewrite H0; [| simpl in Hf; lia | reflexivity].
    cbn [rbind fst snd]. next_char. destruct kv0; reflexivity.
  - cbn [map] in Hbody. rewrite concat_cons2, append_assoc, pair_text_app in Hbody.
    apply string_cons_inj in Hbody. subst body. rewrite scanstring_escape.
    cbn [rbind fst snd]. next_char. rewrite skip_ws_space, skip_ws_dumps.
    rewrite H0; [| simpl in Hf; lia | reflexivity].
    cbn [rbind fst snd String.append]. next_char. rewrite skip_ws_space.
    inversion Hall as [|? ? H1 Hmore]; subst.
    assert (Hnext : exists body',
               String.concat ", " (map Json.pair_text (kv1 :: more)) ++ String "}"%char rest
               = String Json.dquote body').
    { destruct more as [|kv2 more'].
      - cbn [map String.concat]. rewrite pair_text_app. eauto.
      - cbn [map]. rewrite concat_cons2, append_assoc, pair_text_app. eauto. }
    destruct Hnext as [body' Hb].
    change (Json.pair_text kv1 :: map Json.pair_text more)
      with (map Json.pair_text (kv1 :: more)).
    rewrite Hb. next_char.
    rewrite (IH kv1 f rest body' H1 Hmore); [destruct kv0; reflexivity | | exact Hb].
    simpl in Hf. simpl. lia.
Qed.

End ReadBack.

(** Induction on a value, with the hypothesis on every item of a list
    and on every value of a dict. *)
Lemma json_induction (P : json -> Prop) :
  P JNull -> (forall b, P (JBool b)) -> (forall n, P (JInt n)) -> P JNaN ->
  (forall s, P (JStr s)) ->
  (forall items, Forall P items -> P (JList items)) ->
  (forall items, Forall (fun kv => P (snd kv)) items -> P (JDict items)) ->
  forall v, P v.
Proof.
  intros HNull HBool HInt HNaN HStr HList HDict.
  fix IH 1. intros [|b|n| |s|items|items].
  - exact HNull.
  - apply HBool.
  - apply HInt.
  - exact HNaN.
  - apply HStr.
  - apply HList.
    refine ((fix go (l : list json) : Forall P l :=
               match l with
               | [] => List.Forall_nil _
               | x :: r => List.Forall_cons _ _ _ (IH x) (go r)
               end) items).
  - apply HDict.
    refine ((fix go (l : list (string * json)) : Forall (fun kv => P (snd kv)) l :=
               match l with
               | [] => List.Forall_nil _
               | kv :: r => List.Forall_cons _ kv r (IH (snd kv)) (go r)
               end) items).
Qed.

Lemma scan_once_nan pc f rest :
  Json.scan_once pc (S f) ("NaN" ++ rest) = rbind (pc "NaN") (fun v => Ok (v, rest)).
Proof. reflexivity. Qed.

Lemma scan_once_list pc f r :
  Json.scan_once pc (S f) (String "["%char r)
  = match Json.skip_ws r with
    | String c1 r1 =>
        if Ascii.eqb c1 "]"%char then Ok (JList [], r1)
        else rbind (Json.array_items pc f (String c1 r1))
               (fun out => Ok (JList (fst out), snd out))
    | EmptyString => Raise JSONDecodeError
    end.
Proof. reflexivity. Qed.

Lemma scan_once_dict pc f r :
  Json.scan_once pc (S f) (String "{"%char r)
  = match Json.skip_ws r with
    | String c1 r1 =>
        if Ascii.eqb c1 "}"%char then Ok (JDict [], r1)
        else if Ascii.eqb c1 Json.dquote then
          rbind (Json.object_pairs pc f r1)
            (fun out => Ok (JDict (Json.dict_of_pairs (fst out)), snd out))
        else Raise JSONDecodeError
    | EmptyString => Raise JSONDecodeError
    end.
Proof. reflexivity. Qed.

Lemma concat_dumps_head v0 more t :
  exists c r,
    String.concat ", " (map Json.dumps (v0 :: more)) ++ t = String c r
    /\ Json.is_ws c = false /\ Ascii.eqb c "]"%char = false.
Proof.
  destruct more as [|v1 more'].
  - apply dumps_head.
  - cbn [map]. rewrite concat_cons2, append_assoc. apply dumps_head.
Qed.

Lemma concat_pairs_head kv0 more t :
  exists body,
    String.concat ", " (map Json.pair_text (kv0 :: more)) ++ t = String Json.dquote body.
Proof.
  destruct more as [|kv1 more'].
  - cbn [map String.concat]. rewrite pair_text_app. eauto.
  - cbn [map]. rewrite concat_cons2, append_assoc, pair_text_app. eauto.
Qed.

(** Every value without a repeated key is read back from its text; a
    value that holds [nan] needs a hook that reads [NaN] as [nan]. *)
Lemma scan_once_dumps pc v :
  Json.keys_distinct v = true ->
  (Json.has_nan v = true -> pc "NaN" = Ok JNaN) ->
  Json.reads_back pc v.
Proof.
  induction v as [|b|n| |s|items IH|items IH] using json_induction;
    intros Hk Hn f rest Hf Hd;
    (destruct f as [|f]; [simpl in Hf; lia|]).
  - reflexivity.
  - destruct b; reflexivity.
  - now apply scan_once_int.
  - cbn [Json.dumps]. rewrite scan_once_nan, Hn; reflexivity.
  - cbn [Json.dumps Json.encode_basestring String.append].
    rewrite scan_once_string, append_assoc. cbn [String.append].
    rewrite scanstring_escape. reflexivity.
  - cbn [Json.dumps String.append]. rewrite append_assoc. cbn [String.append].
    rewrite scan_once_list.
    destruct items as [|v0 more].
    { cbn [map String.concat String.append]. next_char. reflexivity. }
    destruct (concat_dumps_head v0 more (String "]"%char rest)) as (c & r & E & Hw & Hc).
    assert (Hall : Forall (Json.reads_back pc) (v0 :: more)).
    { rewrite Stdlib.Lists.List.Forall_forall in IH |- *. intros x Hx. apply IH; [exact Hx | |].
      - cbn [Json.keys_distinct] in Hk. rewrite forallb_forall in Hk. now apply Hk.
      - intros Hx'. apply Hn. cbn [Json.has_nan]. apply existsb_exists. eauto. }
    rewrite E, (skip_ws_plain c r Hw), Hc, <- E.
    inversion Hall as [|? ? H0 Hmore]; subst.
    rewrite (array_items_dumps pc more v0 f rest H0 Hmore); [reflexivity|].
    cbn [Json.need] in Hf. lia.
  - cbn [Json.dumps].
    change (map (fun kv => Json.encode_basestring (fst kv) ++ ": " ++ Json.dumps (snd kv))
              items)
      with (map Json.pair_text items).
    cbn [String.append]. rewrite append_assoc. cbn [String.append].
    rewrite scan_once_dict.
    destruct items as [|kv0 more].
    { cbn [map String.concat String.append]. next_char. reflexivity. }
    destruct (concat_pairs_head kv0 more (String "}"%char rest)) as (body & E).
    assert (Hall : Forall (fun kv => Json.reads_back pc (snd kv)) (kv0 :: more)).
    { rewrite Stdlib.Lists.List.Forall_forall in IH |- *. intros x Hx. apply IH; [exact Hx | |].
      - cbn [Json.keys_distinct] in Hk. apply andb_true_iff in Hk as [_ Hk].
        rewrite forallb_forall in Hk. now apply Hk.
      - intros Hx'. apply Hn. cbn [Json.has_nan]. apply existsb_exists. eauto. }
    rewrite E. next_char.
    inversion Hall as [|? ? H0 Hmore]; subst.
    rewrite (object_pairs_dumps pc more kv0 f rest body H0 Hmore);
      [| cbn [Json.need] in Hf; lia | exact E].
    cbn [rbind fst snd]. rewrite dict_of_pairs_distinct; [reflexivity|].
    cbn [Json.keys_distinct] in Hk. now apply andb_true_iff in Hk as [Hk _].
Qed.

(** *** Fuel *)

Lemma concat_length_bound {A : Type} (f : A -> string) (g : A -> nat) l :
  Forall (fun x => (g x <= String.length (f x))%nat) l ->
  (list_sum (map (fun x => S (g x)) l) <= String.length (String.concat ", " (map f l)) + 1)%nat.
Proof.
  induction l as [|x l IH]; intros H; [simpl; lia|].
  inversion H as [|? ? Hx Hl]; subst. specialize (IH Hl).
  change (list_sum (map (fun x => S (g x)) (x :: l)))
    with (S (g x) + list_sum (map (fun x => S (g x)) l))%nat.
  destruct l as [|y l'].
  - simpl. lia.
  - change (map f (x :: y :: l')) with (f x :: f y :: map f l').
    rewrite concat_cons2. change (f y :: map f l') with (map f (y :: l')).
    rewrite !length_app. change (String.length ", ") with 2%nat. lia.
Qed.

Lemma need_le_length v : (Json.need v <= String.length (Json.dumps v))%nat.
Proof.
  induction v as [|b|n| |s|items IH|items IH] using json_induction.
  - simpl. lia.
  - destruct b; simpl; lia.
  - destruct (int_repr_head n) as (c & r & E & _). cbn [Json.dumps Json.need].
    rewrite E. simpl. lia.
  - simpl. lia.
  - simpl. lia.
  - cbn [Json.dumps Json.need]. cbn [String.append String.length].
    rewrite length_app. simpl String.length.
    pose proof (concat_length_bound Json.dumps Json.need items IH). lia.
  - cbn [Json.dumps Json.need].
    change (map (fun kv => Json.encode_basestring (fst kv) ++ ": " ++ Json.dumps (snd kv))
              items)
      with (map Json.pair_text items).
    cbn [String.append String.length]. rewrite length_app. simpl String.length.
    assert (H : Forall (fun kv => (Json.need (snd kv) <= String.length (Json.pair_text kv))%nat)
                  items).
    { eapply Stdlib.Lists.List.Forall_impl; [|exact IH]. intros kv Hkv. cbv beta in Hkv.
      unfold Json.pair_text. rewrite !length_app. lia. }
    pose proof (concat_length_bound Json.pair_text (fun kv => Json.need (snd kv)) items H).
    lia.
Qed.

(** *** [loads] after [dumps] *)

Lemma loads_dumps pc v :
  Json.keys_distinct v = true ->
  (Json.has_nan v = true -> pc "NaN" = Ok JNaN) ->
  Json.loads pc (Json.dumps v) = Ok v /\ Json.loads pc (output_line v) = Ok v.
Proof.
  intros Hk Hn. pose proof (scan_once_dumps pc v Hk Hn) as Hv.
  pose proof (need_le_length v) as Hl. split.
  - unfold Json.loads. rewrite <- (app_empty_r (Json.dumps v)) at 2.
    rewrite skip_ws_dumps, Hv; [reflexivity | lia | reflexivity].
  - unfold Json.loads, output_line. rewrite skip_ws_dumps, Hv; [reflexivity | | reflexivity].
    rewrite length_app. lia.
Qed.

(** The document of a row never repeats a key. *)
Lemma create_mongo_document_keys col row :
  Json.keys_distinct (create_mongo_document col row) = true.
Proof.
  assert (Hc : forall x, Json.keys_distinct (cell_json x) = true) by (now intros []).
  unfold create_mongo_document, split_document, range.
  cbn [seq fold_left Nat.sub app Json.keys_distinct map fst snd forallb].
  rewrite !Hc.
  destruct (event_year row), (event_city row), col; reflexivity.
Qed.

Lemma escape_unescaped s :
  PyStr.forallb_str unescaped s = true -> Json.escape s = s.
Proof.
  induction s as [|c s IH]; [reflexivity|]. cbn [PyStr.forallb_str Json.escape].
  intros [Hc Hs]%andb_true_iff. rewrite (IH Hs).
  unfold unescaped in Hc. cbv zeta in Hc.
  apply andb_true_iff in Hc as [Hc H92]. apply andb_true_iff in Hc as [H32 H34].
  apply N.leb_le in H32. apply negb_true_iff, N.eqb_neq in H34, H92.
  now rewrite escape_char_plain.
Qed.

(** X17. The document of a row that holds no [nan] is read back from its
    output line, and from its text without the newline, exactly as it was
    by [json.loads] with any [parse_constant] hook: same keys in the same
    order, same strings, null for null and the same integers. A string of
    characters other than the quote, the backslash and the control
    characters, which all the characters of 128 and above are, is written
    between two quotes as it is. *)
Theorem output_line_roundtrip :
  forall (col : column_dtype) (row : Enriched) (parse_constant : string -> result json),
    Json.has_nan (create_mongo_document col row) = false ->
    Json.loads parse_constant (output_line (create_mongo_document col row))
    = Ok (create_mongo_document col row)
    /\ Json.loads parse_constant (Json.dumps (create_mongo_document col row))
       = Ok (create_mongo_document col row)
    /\ (forall s,
          PyStr.forallb_str unescaped s = true ->
          Json.dumps (JStr s) = String Json.dquote (s ++ String Json.dquote EmptyString))
    /\ (forall c, (128 <= PyStr.code c)%N -> unescaped c = true).
Proof.
  intros col row pc Hnan.
  destruct (loads_dumps pc (create_mongo_document col row)) as [H1 H2].
  - apply create_mongo_document_keys.
  - rewrite Hnan. discriminate.
  - split; [exact H2|]. split; [exact H1|]. split.
    + intros s Hs. cbn [Json.dumps]. unfold Json.encode_basestring.
      now rewrite escape_unescaped.
    + intros c Hc. unfold unescaped. cbv zeta.
      destruct (N.leb_spec 32 (PyStr.code c)); [|lia].
      destruct (N.eqb_spec (PyStr.code c) 34); [lia|].
      destruct (N.eqb_spec (PyStr.code c) 92); [lia | reflexivity].
Qed.

Lemma output_line_roundtrip_witness :
  Json.loads Json.reject_constant
    (output_line (create_mongo_document ObjectDtype sample_enriched))
  = Ok (create_mongo_document ObjectDtype sample_enriched).
Proof.
  exact (proj1 (output_line_roundtrip ObjectDtype sample_enriched Json.reject_constant
                  eq_refl)).
Defined.

(** * Further properties *)

(** ** Year and missing values *)

Lemma digit_value_range c :
  PyStr.is_decimal c = true -> 0 <= PyStr.digit_value c <= 9.
Proof.
  unfold PyStr.is_decimal, PyStr.digit_value.
  intros [H1 H2]%andb_true_iff. apply N.leb_le in H1, H2. lia.
Qed.

(** X1. A year the pipeline extracts lies between 0 and 9999. *)
Theorem extract_year_range :
  forall (name : cell) (y : Z), extract_year name = Some y -> 0 <= y <= 9999.
Proof.
  intros [|name] y; [discriminate|].
  unfold extract_year, extract_year_text, astype_Int64.
  pose proof (search_d4_spec name) as H.
  destruct (PyStr.search_d4 name) as [t|]; [|discriminate].
  destruct H as (pre & a & b & c & d & -> & [_ Hd] & _).
  cbn [option_map]. intros Hy.
  assert (Hv : y = decimal_value 0 (String a (String b (String c (String d EmptyString)))))
    by congruence.
  rewrite Hv, decimal_value_4. clear Hy Hv.
  apply andb_true_iff in Hd as [Hd Hdd]. apply andb_true_iff in Hd as [Hd Hdc].
  apply andb_true_iff in Hd as [Hda Hdb].
  pose proof (digit_value_range a Hda). pose proof (digit_value_range b Hdb).
  pose proof (digit_value_range c Hdc). pose proof (digit_value_range d Hdd). lia.
Qed.

Lemma extract_year_range_witness : 0 <= 2023 <= 9999.
Proof. exact (extract_year_range (Str "S6 2023 Munich") 2023 eq_refl). Defined.

(** What a row that passes steps 2 to 7 holds. *)
Lemma enrich_fields r e :
  enrich r = Ok e ->
  base e = fill_missing (fix_event_name event_corrections r)
  /\ is_championship e
     = championship_flag (event_name (fix_event_name event_corrections r))
  /\ event_year e = extract_year (event_name (fix_event_name event_corrections r))
  /\ extract_city (event_name (fix_event_name event_corrections r))
       (championship_flag (event_name (fix_event_name event_corrections r)))
     = Ok (event_city e)
  /\ seconds e = convert_times (fix_event_name event_corrections r)
  /\ is_valid e
     = check_valid_completion (convert_times (fix_event_name event_corrections r)).
Proof.
  unfold enrich. cbv zeta.
  destruct (extract_city _ _) as [city|x] eqn:E; [|discriminate].
  intros [= <-]. repeat split.
Qed.

Lemma fix_event_name_other r :
  let r' := fix_event_name event_corrections r in
  event_id r' = event_id r /\ gender r' = gender r /\ nationality r' = nationality r
  /\ age_group r' = age_group r /\ division r' = division r
  /\ total_time r' = total_time r /\ work_time r' = work_time r
  /\ roxzone_time r' = roxzone_time r /\ run_time r' = run_time r
  /\ run r' = run r /\ work r' = work r /\ roxzone r' = roxzone r.
Proof.
  cbv zeta. unfold fix_event_name. destruct (event_id r) as [|id] eqn:E.
  - rewrite E. repeat split.
  - destruct (event_corrections !! id); simpl; rewrite ?E; repeat split.
Qed.

Lemma document_athlete col e :
  get2 "athlete" "nationality" (create_mongo_document col e)
  = Some (cell_json (nationality (base e)))
  /\ get2 "athlete" "age_group" (create_mongo_document col e)
     = Some (cell_json (age_group (base e))).
Proof. split; reflexivity. Qed.

(** X2. In the document of every row that passes the pipeline the
    nationality and the age group are strings, never NaN: the text of the
    row where it has one, and Unknown and Not specified where it is
    missing. *)
Theorem document_athlete_filled :
  forall (col : column_dtype) (r : Row) (e : Enriched),
    enrich r = Ok e ->
    get2 "athlete" "nationality" (create_mongo_document col e)
    = Some (JStr (match nationality r with NaN => "Unknown" | Str s => s end))
    /\ get2 "athlete" "age_group" (create_mongo_document col e)
       = Some (JStr (match age_group r with NaN => "Not specified" | Str s => s end)).
Proof.
  intros col r e (Hb & _)%enrich_fields.
  destruct (fix_event_name_other r) as (_ & _ & Hn & Ha & _).
  cbv zeta in Hn, Ha. destruct (document_athlete col e) as [-> ->].
  rewrite Hb. cbn [fill_missing nationality age_group]. rewrite Hn, Ha.
  destruct (nationality r), (age_group r); split; reflexivity.
Qed.

Lemma document_athlete_filled_witness :
  get2 "athlete" "nationality" (create_mongo_document StrDtype sample_enriched_dnf)
  = Some (JStr "Unknown")
  /\ get2 "athlete" "age_group" (create_mongo_document StrDtype sample_enriched_dnf)
     = Some (JStr "30-34").
Proof.
  exact (document_athlete_filled StrDtype sample_row_dnf sample_enriched_dnf
           enrich_sample_dnf).
Defined.

(** ** Durations, further *)

Lemma time_to_seconds_nonzero t :
  time_to_seconds (Str t) <> 0 ->
  (exists a b c h m s,
      PyStr.split ":" t = [a; b; c]
      /\ PyStr.int a = Ok h /\ PyStr.int b = Ok m /\ PyStr.int c = Ok s
      /\ time_to_seconds (Str t) = h * 3600 + m * 60 + s)
  \/ (exists a b m s,
      PyStr.split ":" t = [a; b]
      /\ PyStr.int a = Ok m /\ PyStr.int b = Ok s
      /\ time_to_seconds (Str t) = m * 60 + s).
Proof.
  rewrite time_to_seconds_text. unfold time_to_seconds_body. simpl py_str.
  destruct (PyStr.split ":" t) as [|a [|b [|c [|d l]]]] eqn:E; simpl;
    try (intros H; now contradiction H).
  - destruct (PyStr.int a) as [m|] eqn:Ea; simpl; [|intros H; now contradiction H].
    destruct (PyStr.int b) as [s|] eqn:Eb; simpl; [|intros H; now contradiction H].
    intros _. right. exists a, b, m, s. auto.
  - destruct (PyStr.int a) as [h|] eqn:Ea; simpl; [|intros H; now contradiction H].
    destruct (PyStr.int b) as [m|] eqn:Eb; simpl; [|intros H; now contradiction H].
    destruct (PyStr.int c) as [s|] eqn:Ec; simpl; [|intros H; now contradiction H].
    intros _. left. exists a, b, c, h, m, s. auto 6.
Qed.

(** X3. The duration parser gives a value other than 0 only on a text
    that splits at the colons into two or three parts which [int] reads,
    and the value is then their weighted sum: every missing, empty or
    malformed duration is 0. *)
Theorem time_to_seconds_nonzero_shape :
  forall x : cell,
    time_to_seconds x <> 0 ->
    exists t,
      x = Str t
      /\ ((exists a b c h m s,
              PyStr.split ":" t = [a; b; c]
              /\ PyStr.int a = Ok h /\ PyStr.int b = Ok m /\ PyStr.int c = Ok s
              /\ time_to_seconds x = h * 3600 + m * 60 + s)
          \/ (exists a b m s,
              PyStr.split ":" t = [a; b]
              /\ PyStr.int a = Ok m /\ PyStr.int b = Ok s
              /\ time_to_seconds x = m * 60 + s)).
Proof.
  intros [|t] H; [now contradiction H|].
  exists t. split; [reflexivity|]. now apply time_to_seconds_nonzero.
Qed.

Lemma time_to_seconds_nonzero_shape_witness :
  exists t,
    Str "45:10" = Str t
    /\ ((exists a b c h m s,
            PyStr.split ":" t = [a; b; c]
            /\ PyStr.int a = Ok h /\ PyStr.int b = Ok m /\ PyStr.int c = Ok s
            /\ time_to_seconds (Str "45:10") = h * 3600 + m * 60 + s)
        \/ (exists a b m s,
            PyStr.split ":" t = [a; b]
            /\ PyStr.int a = Ok m /\ PyStr.int b = Ok s
            /\ time_to_seconds (Str "45:10") = m * 60 + s)).
Proof.
  apply (time_to_seconds_nonzero_shape (Str "45:10")). vm_compute. discriminate.
Defined.

Lemma int_digits_nonneg s : forall need acc z,
  0 <= acc -> PyStr.int_digits need acc s = Some z -> 0 <= z.
Proof.
  induction s as [|c r IH]; intros need acc z Hacc; simpl.
  - destruct need; [discriminate|]. now intros [= <-].
  - destruct (PyStr.is_decimal c) eqn:Hd.
    + apply IH. pose proof (digit_value_range c Hd). lia.
    + destruct need; [discriminate|].
      destruct (Ascii.eqb c "_"%char); [now apply IH|].
      destruct (PyStr.is_int_space c && PyStr.forallb_str PyStr.is_int_space r);
        [now intros [= <-] | discriminate].
Qed.

Lemma no_minus_lstrip s : no_minus s = true -> no_minus (PyStr.lstrip_int s) = true.
Proof.
  induction s as [|c r IH]; simpl; [reflexivity|].
  intros [Hc Hr]%andb_true_iff.
  destruct (PyStr.is_int_space c); [auto|]. simpl. now rewrite Hc, Hr.
Qed.

(** [int] gives no negative number on a text without minus sign. *)
Lemma int_nonneg s z : no_minus s = true -> PyStr.int s = Ok z -> 0 <= z.
Proof.
  intros Hm%no_minus_lstrip. unfold PyStr.int.
  destruct (PyStr.lstrip_int s) as [|c r] eqn:E; [discriminate|].
  simpl in Hm. apply andb_true_iff in Hm as [Hc Hr]. apply negb_true_iff in Hc.
  assert (Hgen : forall o : option Z,
             match o with Some z0 => Ok z0 | None => Raise ValueError end = Ok z ->
             o = Some z).
  { intros [z'|] Ho; [congruence | discriminate]. }
  destruct (Ascii.eqb c "+"%char) eqn:Hp; [apply Ascii.eqb_eq in Hp; subst c|].
  { intros H%Hgen. now apply int_digits_nonneg in H. }
  intros H.
  assert (H' : PyStr.int_digits true 0 (String c r) = Some z).
  { apply Hgen. revert H.
    destruct c as [[] [] [] [] [] [] [] []]; try exact (fun h => h); discriminate. }
  now apply int_digits_nonneg in H'.
Qed.

Lemma no_minus_snoc cur c :
  no_minus (PyStr.snoc cur c) = no_minus cur && negb (Ascii.eqb c "-"%char).
Proof.
  unfold PyStr.snoc. induction cur as [|a cur IH]; simpl.
  - now rewrite andb_true_r.
  - rewrite IH. now rewrite andb_assoc.
Qed.

Lemma split_go_no_minus s : forall cur,
  no_minus cur = true -> no_minus s = true ->
  Forall (fun p => no_minus p = true) (PyStr.split_go ":" 0 cur s).
Proof.
  induction s as [|c r IH]; intros cur Hcur; simpl.
  - intros _. now constructor.
  - intros [Hc Hr]%andb_true_iff.
    destruct (Ascii.eqb ":"%char c && true).
    + constructor; [exact Hcur|]. now apply IH.
    + apply IH; [|exact Hr]. now rewrite no_minus_snoc, Hcur, Hc.
Qed.

(** X4. On a text without minus sign, and on a missing value, the
    duration parser never gives a negative number of seconds. *)
Theorem time_to_seconds_nonneg :
  forall x : cell,
    match x with NaN => True | Str t => no_minus t = true end ->
    0 <= time_to_seconds x.
Proof.
  intros [|t] Hm; [reflexivity|].
  destruct (Z.eq_dec (time_to_seconds (Str t)) 0) as [->|Hnz]; [lia|].
  pose proof (split_go_no_minus t EmptyString eq_refl Hm) as Hparts.
  change (PyStr.split_go ":" 0 EmptyString t) with (PyStr.split ":" t) in Hparts.
  destruct (time_to_seconds_nonzero t Hnz)
    as [(a & b & c & h & m & s & E & Ha & Hb & Hc & ->)|(a & b & m & s & E & Ha & Hb & ->)];
    rewrite E in Hparts.
  - inversion Hparts as [|? ? Pa Hp1]; subst. inversion Hp1 as [|? ? Pb Hp2]; subst.
    inversion Hp2 as [|? ? Pc _]; subst.
    pose proof (int_nonneg a h Pa Ha). pose proof (int_nonneg b m Pb Hb).
    pose proof (int_nonneg c s Pc Hc). lia.
  - inversion Hparts as [|? ? Pa Hp1]; subst. inversion Hp1 as [|? ? Pb _]; subst.
    pose proof (int_nonneg a m Pa Ha). pose proof (int_nonneg b s Pb Hb). lia.
Qed.

Lemma time_to_seconds_nonneg_witness : 0 <= time_to_seconds (Str "1:75:90").
Proof. exact (time_to_seconds_nonneg (Str "1:75:90") eq_refl). Defined.

(** ** Completion and document *)

Lemma splits_of_document col e :
  splits_of (create_mongo_document col e) = map (split_document e) (range 1 9).
Proof. reflexivity. Qed.

Lemma nth_range_1_9 {A : Type} (f : nat -> A) i :
  (1 <= i <= 8)%nat -> nth_error (map f (range 1 9)) (i - 1) = Some (f i).
Proof.
  intros Hi.
  do 9 (destruct i as [|i]; [first [lia | reflexivity]|]). lia.
Qed.

(** X5. A row is valid only if each of its eight run times and eight
    work times is present and is a text of two or three colon-separated
    parts that [int] reads, with a positive weighted sum: a missing,
    empty, zero or malformed split time makes the row invalid. *)
Theorem valid_row_times :
  forall (r : Row) (e : Enriched),
    enrich r = Ok e -> is_valid e = true ->
    forall i, (1 <= i <= 8)%nat ->
      (exists t, run r i = Str t /\ 0 < time_to_seconds (Str t)
                 /\ (length (PyStr.split ":" t) = 2 \/ length (PyStr.split ":" t) = 3)%nat
                 /\ Forall (fun p => exists n, PyStr.int p = Ok n) (PyStr.split ":" t))
      /\ (exists t, work r i = Str t /\ 0 < time_to_seconds (Str t)
                 /\ (length (PyStr.split ":" t) = 2 \/ length (PyStr.split ":" t) = 3)%nat
                 /\ Forall (fun p => exists n, PyStr.int p = Ok n) (PyStr.split ":" t)).
Proof.
  intros r e (_ & _ & _ & _ & _ & Hv)%enrich_fields Hvalid i Hi.
  rewrite Hv in Hvalid. unfold check_valid_completion in Hvalid.
  rewrite completion_loop_true in Hvalid.
  destruct (Hvalid i (proj2 (in_range_1_9 i) Hi)) as [Hr Hw].
  destruct (fix_event_name_other r) as (_ & _ & _ & _ & _ & _ & _ & _ & _ & Er & Ew & _).
  cbv zeta in Er, Ew. cbn [convert_times run_seconds work_seconds] in Hr, Hw.
  rewrite Er in Hr. rewrite Ew in Hw.
  assert (Hshape : forall x, 0 < time_to_seconds x ->
            exists t, x = Str t /\ 0 < time_to_seconds (Str t)
              /\ (length (PyStr.split ":" t) = 2 \/ length (PyStr.split ":" t) = 3)%nat
              /\ Forall (fun p => exists n, PyStr.int p = Ok n) (PyStr.split ":" t)).
  { intros [|t] Hpos; [discriminate Hpos|]. exists t. split; [reflexivity|].
    split; [exact Hpos|].
    destruct (time_to_seconds_nonzero t)
      as [(a & b & c & h & m & s & -> & Ha & Hb & Hc & _)|(a & b & m & s & -> & Ha & Hb & _)];
      [lia | |]; (split; [simpl; auto | repeat constructor; eauto]). }
  split; now apply Hshape.
Qed.

Lemma valid_row_times_witness :
  exists t, run sample_row 3 = Str t /\ 0 < time_to_seconds (Str t)
            /\ (length (PyStr.split ":" t) = 2 \/ length (PyStr.split ":" t) = 3)%nat
            /\ Forall (fun p => exists n, PyStr.int p = Ok n) (PyStr.split ":" t).
Proof.
  refine (proj1 (valid_row_times sample_row sample_enriched enrich_sample eq_refl 3 _)).
  lia.
Defined.

Lemma split_document_fields e i :
  get "split_number" (split_document e i) = Some (JInt (Z.of_nat i))
  /\ get "run_time" (split_document e i) = Some (cell_json (run (base e) i))
  /\ get "run_seconds" (split_document e i) = Some (JInt (run_seconds (seconds e) i))
  /\ get "work_time" (split_document e i) = Some (cell_json (work (base e) i))
  /\ get "work_seconds" (split_document e i) = Some (JInt (work_seconds (seconds e) i))
  /\ get "roxzone_time" (split_document e i) = Some (cell_json (roxzone (base e) i))
  /\ get "roxzone_seconds" (split_document e i)
     = Some (JInt (roxzone_seconds (seconds e) i)).
Proof. repeat split. Qed.

(** X6. In the document of every row that passes the pipeline, the
    entry of split [i] keeps the text of the three durations of the row
    as they were read (NaN where missing) next to the seconds the parser
    gives for that very text. *)
Theorem document_split_consistent :
  forall (col : column_dtype) (r : Row) (e : Enriched),
    enrich r = Ok e ->
    forall i, (1 <= i <= 8)%nat ->
    exists sp,
      nth_error (splits_of (create_mongo_document col e)) (i - 1) = Some sp
      /\ get "split_number" sp = Some (JInt (Z.of_nat i))
      /\ get "run_time" sp = Some (cell_json (run r i))
      /\ get "run_seconds" sp = Some (JInt (time_to_seconds (run r i)))
      /\ get "work_time" sp = Some (cell_json (work r i))
      /\ get "work_seconds" sp = Some (JInt (time_to_seconds (work r i)))
      /\ get "roxzone_time" sp = Some (cell_json (roxzone r i))
      /\ get "roxzone_seconds" sp = Some (JInt (time_to_seconds (roxzone r i))).
Proof.
  intros col r e (Hb & _ & _ & _ & Hs & _)%enrich_fields i Hi.
  exists (split_document e i). rewrite splits_of_document.
  split; [now apply nth_range_1_9|].
  destruct (split_document_fields e i) as (-> & -> & -> & -> & -> & -> & ->).
  destruct (fix_event_name_other r) as (_ & _ & _ & _ & _ & _ & _ & _ & _ & Er & Ew & Ex).
  cbv zeta in Er, Ew, Ex. rewrite Hb, Hs.
  cbn [fill_missing convert_times run work roxzone run_seconds work_seconds roxzone_seconds].
  rewrite Er, Ew, Ex. repeat split.
Qed.

Lemma document_split_consistent_witness :
  exists sp,
    nth_error (splits_of (create_mongo_document StrDtype sample_enriched_dnf)) (3 - 1)
    = Some sp
    /\ get "split_number" sp = Some (JInt (Z.of_nat 3))
    /\ get "run_time" sp = Some (cell_json (run sample_row_dnf 3))
    /\ get "run_seconds" sp = Some (JInt (time_to_seconds (run sample_row_dnf 3)))
    /\ get "work_time" sp = Some (cell_json (work sample_row_dnf 3))
    /\ get "work_seconds" sp = Some (JInt (time_to_seconds (work sample_row_dnf 3)))
    /\ get "roxzone_time" sp = Some (cell_json (roxzone sample_row_dnf 3))
    /\ get "roxzone_seconds" sp = Some (JInt (time_to_seconds (roxzone sample_row_dnf 3))).
Proof.
  refine (document_split_consistent StrDtype sample_row_dnf sample_enriched_dnf
            enrich_sample_dnf 3 _).
  lia.
Defined.

(** X7. In the document of every row that passes the pipeline,
    [performance.is_valid] is true exactly when the run seconds and the
    work seconds of all the entries of [splits] of that document are
    positive integers; the roxzone seconds are not looked at. *)
Theorem document_is_valid :
  forall (col : column_dtype) (r : Row) (e : Enriched),
    enrich r = Ok e ->
    exists b,
      get2 "performance" "is_valid" (create_mongo_document col e) = Some (JBool b)
      /\ (b = true <->
          Forall (fun sp =>
                    exists x y,
                      json_int (get "run_seconds" sp) = Some x
                      /\ json_int (get "work_seconds" sp) = Some y
                      /\ 0 < x /\ 0 < y)
            (splits_of (create_mongo_document col e))).
Proof.
  intros col r e (_ & _ & _ & _ & Hs & Hv)%enrich_fields.
  exists (is_valid e). split; [reflexivity|].
  rewrite Hv, <- Hs, splits_of_document. unfold check_valid_completion.
  rewrite completion_loop_true, Forall_map, Stdlib.Lists.List.Forall_forall.
  split.
  - intros H i Hi. exists (run_seconds (seconds e) i), (work_seconds (seconds e) i).
    destruct (H i Hi). repeat split; assumption.
  - intros H i Hi. destruct (H i Hi) as (x & y & Hx & Hy & Hpx & Hpy).
    cbn in Hx, Hy. injection Hx as <-. injection Hy as <-. now split.
Qed.

Lemma document_is_valid_witness :
  exists b,
    get2 "performance" "is_valid" (create_mongo_document StrDtype sample_enriched_dnf)
    = Some (JBool b)
    /\ (b = true <->
        Forall (fun sp =>
                  exists x y,
                    json_int (get "run_seconds" sp) = Some x
                    /\ json_int (get "work_seconds" sp) = Some y
                    /\ 0 < x /\ 0 < y)
          (splits_of (create_mongo_document StrDtype sample_enriched_dnf))).
Proof.
  exact (document_is_valid StrDtype sample_row_dnf sample_enriched_dnf enrich_sample_dnf).
Defined.

(** ** Words *)

Lemma split_ws_go_some_nonempty s : forall ms w,
  PyStr.split_ws_go ms (Some w) s <> [].
Proof.
  induction s as [|c r IH]; intros ms w; simpl; [discriminate|].
  destruct (PyStr.is_space c); [discriminate | apply IH].
Qed.

(** [s.split()] and [s.split(maxsplit=n)] are empty exactly on a blank
    text. *)
Lemma split_ws_go_nil s : forall ms,
  PyStr.split_ws_go ms None s = [] <-> blank s = true.
Proof.
  unfold blank. induction s as [|c r IH]; intros ms; simpl; [tauto|].
  destruct (PyStr.is_space c); simpl; [apply IH|].
  split; [|discriminate].
  destruct ms as [[|k]|]; [discriminate| |]; intros H;
    now apply split_ws_go_some_nonempty in H.
Qed.

Lemma word_start_snoc w c : word_start w = true -> word_start (PyStr.snoc w c) = true.
Proof. destruct w; [discriminate | exact (fun h => h)]. Qed.

(** Every item [split] cuts at whitespace is a non-empty text that
    starts with a character other than whitespace. *)
Lemma split_ws_go_word_start s : forall ms cur,
  match cur with Some w => word_start w = true | None => True end ->
  Forall (fun w => word_start w = true) (PyStr.split_ws_go ms cur s).
Proof.
  induction s as [|c r IH]; intros ms cur Hcur; simpl.
  - destruct cur; constructor; [exact Hcur | constructor].
  - destruct cur as [w|].
    + destruct (PyStr.is_space c).
      * constructor; [exact Hcur | now apply IH].
      * apply IH. now apply word_start_snoc.
    + destruct (PyStr.is_space c) eqn:Hc; [now apply IH|].
      destruct ms as [[|k]|].
      * constructor; [simpl; now rewrite Hc | constructor].
      * apply IH. simpl. now rewrite Hc.
      * apply IH. simpl. now rewrite Hc.
Qed.

Lemma split_ws_go_length s : forall n cur,
  length (PyStr.split_ws_go (Some n) cur s)
  = Nat.min (length (PyStr.split_ws_go None cur s))
            (n + 1 + match cur with Some _ => 1 | None => 0 end).
Proof.
  induction s as [|c r IH]; intros n cur; cbn [PyStr.split_ws_go].
  - destruct cur; cbn [length]; lia.
  - destruct cur as [w|].
    + destruct (PyStr.is_space c); cbn [length]; rewrite IH; lia.
    + destruct (PyStr.is_space c); [rewrite IH; lia|].
      destruct n as [|k].
      * pose proof (split_ws_go_some_nonempty r None (String c EmptyString)) as H.
        destruct (PyStr.split_ws_go None (Some (String c EmptyString)) r);
          [contradiction | cbn [length]; lia].
      * rewrite IH. lia.
Qed.

(** [s.split(maxsplit=2)] has [min(3, len(s.split()))] items. *)
Lemma split_ws_max_2_length s :
  length (PyStr.split_ws_max 2 s) = Nat.min (length (PyStr.split_ws s)) 3.
Proof. unfold PyStr.split_ws_max, PyStr.split_ws. now rewrite split_ws_go_length. Qed.

Lemma last_item_in {A : Type} (l : list A) x : PyStr.last_item l = Ok x -> In x l.
Proof.
  unfold PyStr.last_item. destruct (rev l) as [|y l'] eqn:E; [discriminate|].
  intros [= <-]. apply in_rev. rewrite E. now left.
Qed.

Lemma last_item_raise {A : Type} (l : list A) e :
  PyStr.last_item l = Raise e <-> l = [] /\ e = IndexError.
Proof.
  unfold PyStr.last_item. destruct l as [|a l]; simpl.
  - split; [now intros [= <-] | now intros [_ ->]].
  - destruct (rev l ++ [a])%list as [|y l'] eqn:E.
    + now destruct (rev l).
    + split; [discriminate | now intros [? _]].
Qed.

Lemma last_item_last_word s :
  PyStr.split_ws s <> [] -> PyStr.last_item (PyStr.split_ws s) = Ok (last_word s).
Proof.
  unfold PyStr.last_item, last_word. intros H.
  destruct (rev (PyStr.split_ws s)) as [|w l] eqn:E; [|reflexivity].
  apply (f_equal (@rev string)) in E. rewrite rev_involutive in E. now simpl in E.
Qed.

Lemma split_go_nonempty sep s : forall k cur, PyStr.split_go sep k cur s <> [].
Proof.
  induction s as [|c r IH]; intros k cur; simpl; [discriminate|].
  destruct k; [|apply IH].
  destruct (PyStr.startswith sep (String c r)); [discriminate | apply IH].
Qed.

Lemma item_0_split sep s :
  PyStr.item (PyStr.split sep s) 0 = Ok (hd EmptyString (PyStr.split sep s)).
Proof.
  unfold PyStr.item, PyStr.split.
  pose proof (split_go_nonempty sep s 0 EmptyString) as H.
  destruct (PyStr.split_go sep 0 EmptyString s); [contradiction | reflexivity].
Qed.

Lemma city_loop_year parts rest i :
  existsb year_word rest = true ->
  exists city, city_loop parts i rest None = Some city.
Proof.
  revert i. induction rest as [|part rest IH]; intros i; simpl; [discriminate|].
  fold (year_word part). destruct (year_word part); simpl; [eauto | apply IH].
Qed.

Lemma city_loop_none parts rest i :
  existsb year_word rest = false -> city_loop parts i rest None = None.
Proof.
  intros H. apply city_loop_no_year. intros p Hp.
  destruct (PyStr.isdigit p && (PyStr.len p =? 4)%nat) eqn:E; [|reflexivity].
  rewrite <- H. symmetry. apply existsb_exists. exists p. split; assumption.
Qed.

Lemma city_loop_in parts rest i c :
  city_loop parts i rest None = Some (Some c) -> In c parts.
Proof.
  revert i. induction rest as [|part rest IH]; intros i; simpl; [discriminate|].
  destruct (PyStr.isdigit part && (PyStr.len part =? 4)%nat); [|apply IH].
  destruct (i + 1 <? length parts)%nat; [|discriminate].
  intros [= H]. now apply nth_error_In in H.
Qed.

(** ** City, further *)

Lemma contains_not_blank sub s :
  word_start sub = true -> PyStr.contains sub s = true -> blank s = false.
Proof.
  destruct sub as [|c sub']; [discriminate|]. simpl. intros Hc%negb_true_iff.
  unfold blank. induction s as [|a r IH]; simpl; [discriminate|].
  destruct (Ascii.eqb c a) eqn:E.
  - apply Ascii.eqb_eq in E. subst a. intros _. now rewrite Hc.
  - simpl. intros H. rewrite (IH H). apply andb_false_r.
Qed.

Lemma split_ws_not_blank s : blank s = false -> PyStr.split_ws s <> [].
Proof.
  intros Hb H. apply (proj1 (split_ws_go_nil s None)) in H. congruence.
Qed.

(** X8. On a regular (non-championship) name [extract_city] never
    raises, and its result is null exactly when the name has fewer than
    three whitespace-separated words. *)
Theorem extract_city_regular :
  forall name : string,
  exists city,
    extract_city (Str name) false = Ok city
    /\ (city = None <-> (length (PyStr.split_ws name) < 3)%nat).
Proof.
  intros name. unfold extract_city. eexists. split; [reflexivity|].
  pose proof (split_ws_max_2_length name) as Hlen.
  destruct (Nat.ltb_spec 2 (length (PyStr.split_ws_max 2 name))) as [Hlt|Hge].
  - destruct (nth_error (PyStr.split_ws_max 2 name) 2) eqn:E.
    + split; [discriminate | lia].
    + apply nth_error_None in E. lia.
  - split; [lia | reflexivity].
Qed.

(** X9. On a text name [extract_city] raises in two cases only, both
    on championship rows: [IndexError] when the name holds the separator
    and nothing but whitespace stands before its first occurrence, and
    [UnboundLocalError] when the name holds no separator, the second rule
    does not apply and no word is a year of four digits. *)
Theorem extract_city_raises :
  forall (name : string) (champ : bool) (e : exn),
    extract_city (Str name) champ = Raise e <->
    champ = true
    /\ ((PyStr.contains " - " name = true
         /\ blank (hd EmptyString (PyStr.split " - " name)) = true
         /\ e = IndexError)
        \/ (PyStr.contains " - " name = false
            /\ championships_before_last name = false
            /\ existsb year_word (PyStr.split_ws name) = false
            /\ e = UnboundLocalError)).
Proof.
  intros name champ e. unfold extract_city.
  destruct champ; [|split; [discriminate | now intros [? _]]].
  destruct (PyStr.contains " - " name) eqn:Hsep.
  - rewrite item_0_split. cbn [mbind result_bind rbind].
    set (pre := hd EmptyString (PyStr.split " - " name)).
    destruct (PyStr.last_item (PyStr.split_ws_max 2 pre)) as [c|x] eqn:El;
      cbn [rbind].
    + split; [discriminate|]. intros [_ [(_ & Hb & _)|(H & _)]]; [|discriminate].
      apply (proj2 (split_ws_go_nil pre (Some 2%nat))) in Hb.
      unfold PyStr.split_ws_max in El. rewrite Hb in El. discriminate.
    + apply last_item_raise in El as [Hnil ->]. split.
      * intros [= <-]. split; [reflexivity|]. left. repeat split.
        now apply (proj1 (split_ws_go_nil pre (Some 2%nat))).
      * intros [_ [(_ & _ & ->)|(H & _)]]; [reflexivity | discriminate].
  - unfold championships_before_last.
    assert (Hloop : return_local (city_loop (PyStr.split_ws name) 0 (PyStr.split_ws name) None)
                    = Raise e <->
                    existsb year_word (PyStr.split_ws name) = false /\ e = UnboundLocalError).
    { destruct (existsb year_word (PyStr.split_ws name)) eqn:Ey.
      - destruct (city_loop_year (PyStr.split_ws name) (PyStr.split_ws name) 0 Ey) as [c ->].
        split; [discriminate | now intros [? _]].
      - rewrite city_loop_none by assumption. simpl.
        split; [now intros [= <-] | now intros [_ ->]]. }
    destruct (PyStr.contains "Championships" name) eqn:Hch.
    + assert (Hne : PyStr.split_ws name <> []).
      { apply split_ws_not_blank. eapply contains_not_blank; [|exact Hch]. reflexivity. }
      rewrite (last_item_last_word name Hne). cbn [mbind result_bind rbind andb].
      destruct (String.eqb (last_word name) "Championships"); cbn [negb rbind].
      * rewrite Hloop. split.
        -- intros [Hy ->]. split; [reflexivity|]. right. repeat split. exact Hy.
        -- intros [_ [(H & _)|(_ & _ & Hy & ->)]]; [discriminate | now split].
      * split; [discriminate|]. intros [_ [(H & _)|(_ & H & _)]]; discriminate.
    + cbn [mbind result_bind rbind andb]. rewrite Hloop. split.
      * intros [Hy ->]. split; [reflexivity|]. right. repeat split. exact Hy.
      * intros [_ [(H & _)|(_ & _ & Hy & ->)]]; [discriminate | now split].
Qed.

(** X10. A city that [extract_city] returns is never the empty text and
    never starts with whitespace. *)
Theorem extract_city_word :
  forall (name : cell) (champ : bool) (c : string),
    extract_city name champ = Ok (Some c) -> word_start c = true.
Proof.
  intros [|name] champ c; [destruct champ; discriminate|].
  assert (Hall : forall ms s, Forall (fun w => word_start w = true)
                                (PyStr.split_ws_go ms None s)).
  { intros ms s. now apply split_ws_go_word_start. }
  assert (Hin : forall ms s w, In w (PyStr.split_ws_go ms None s) -> word_start w = true).
  { intros ms s w. specialize (Hall ms s).
    rewrite Stdlib.Lists.List.Forall_forall in Hall. apply Hall. }
  unfold extract_city. destruct champ.
  - destruct (PyStr.contains " - " name).
    + rewrite item_0_split. cbn [mbind result_bind rbind].
      destruct (PyStr.last_item _) as [w|] eqn:El; cbn [rbind]; [|discriminate].
      intros [= <-]. apply last_item_in in El. eapply Hin. exact El.
    + assert (Hloop : return_local (city_loop (PyStr.split_ws name) 0
                                      (PyStr.split_ws name) None) = Ok (Some c) ->
                      word_start c = true).
      { destruct (city_loop _ _ _ _) as [[w|]|] eqn:E; simpl; try discriminate.
        intros [= <-]. apply city_loop_in in E. eapply Hin. exact E. }
      destruct (PyStr.contains "Championships" name); cbn [mbind result_bind rbind];
        [|exact Hloop].
      destruct (PyStr.last_item (PyStr.split_ws name)) as [w|] eqn:El;
        cbn [mbind result_bind rbind]; [|discriminate].
      destruct (negb (String.eqb w "Championships")); [|exact Hloop].
      intros [= <-]. apply last_item_in in El. eapply Hin. exact El.
  - destruct (2 <? length (PyStr.split_ws_max 2 name))%nat; [|discriminate].
    intros H.
    assert (H' : nth_error (PyStr.split_ws_max 2 name) 2 = Some c) by congruence.
    apply nth_error_In in H'. eapply Hin. exact H'.
Qed.

Lemma extract_city_word_witness : word_start "Munich" = true.
Proof. exact (extract_city_word (Str "S6 2023 Munich") false "Munich" eq_refl). Defined.

(** ** Championship flag *)

Lemma startswith_spec p s :
  PyStr.startswith p s = true <-> exists post, s = p ++ post.
Proof.
  revert s. induction p as [|a p IH]; intros s; simpl.
  - split; [eauto | reflexivity].
  - destruct s as [|b s]; [split; [discriminate | intros [post H]; discriminate]|].
    rewrite andb_true_iff, IH. split.
    + intros [->%Ascii.eqb_eq [post ->]]. eauto.
    + intros [post [= -> ->]]. split; [apply Ascii.eqb_refl | eauto].
Qed.

(** [sub in s] holds exactly when [s] is [sub] between two texts. *)
Lemma contains_spec sub s :
  PyStr.contains sub s = true <-> exists pre post, s = pre ++ sub ++ post.
Proof.
  induction s as [|a s IH].
  - simpl. rewrite orb_false_r, startswith_spec. split.
    + intros [post H]. exists EmptyString, post. exact H.
    + intros (pre & post & H). destruct pre; [eauto | discriminate].
  - cbn [PyStr.contains]. rewrite orb_true_iff, startswith_spec, IH. split.
    + intros [[post H]|(pre & post & H)].
      * exists EmptyString, post. exact H.
      * exists (String a pre), post. simpl. now rewrite H.
    + intros (pre & post & H). destruct pre as [|b pre].
      * left. eauto.
      * right. simpl in H. injection H as -> H. eauto.
Qed.

Lemma lower_str_app a b :
  PyStr.lower_str (a ++ b) = PyStr.lower_str a ++ PyStr.lower_str b.
Proof. induction a as [|c a IH]; simpl; [reflexivity | now rewrite IH]. Qed.

Lemma lower_str_app_inv a : forall s b,
  PyStr.lower_str s = a ++ b ->
  exists a' b', s = a' ++ b' /\ PyStr.lower_str a' = a /\ PyStr.lower_str b' = b.
Proof.
  induction a as [|c a IH]; intros s b H.
  - exists EmptyString, s. repeat split. exact H.
  - destruct s as [|x s]; [discriminate|]. simpl in H. injection H as Hx H.
    destruct (IH s b H) as (a' & b' & -> & Ha & Hb).
    exists (String x a'), b'. simpl. rewrite Ha, Hx. repeat split. exact Hb.
Qed.

(** X11. The championship flag of a row is true exactly when its name
    holds the word championship in any mix of upper and lower case
    letters; a missing name is not flagged. *)
Theorem championship_flag_spec :
  forall x : cell,
    championship_flag x = true <->
    exists pre w post,
      x = Str (pre ++ w ++ post) /\ PyStr.lower_str w = "championship".
Proof.
  intros [|s]; simpl.
  - split; [discriminate | intros (? & ? & ? & H & _); discriminate].
  - rewrite contains_spec. split.
    + intros (pre & post & H).
      apply lower_str_app_inv in H as (pre' & rest & -> & _ & H).
      apply lower_str_app_inv in H as (w & post' & -> & Hw & _).
      exists pre', w, post'. split; [reflexivity | exact Hw].
    + intros (pre & w & post & [= ->] & Hw).
      exists (PyStr.lower_str pre), (PyStr.lower_str post).
      now rewrite !lower_str_app, Hw.
Qed.

(** ** The written text *)

Lemma no_control_app a b : no_control (a ++ b) = no_control a && no_control b.
Proof.
  unfold no_control. induction a as [|c a IH]; simpl; [reflexivity|].
  now rewrite IH, andb_assoc.
Qed.

Lemma escape_char_no_control c : no_control (Json.escape_char c) = true.
Proof. destruct c as [[] [] [] [] [] [] [] []]; reflexivity. Qed.

Lemma escape_no_control s : no_control (Json.escape s) = true.
Proof.
  induction s as [|c s IH]; [reflexivity|].
  cbn [Json.escape]. now rewrite no_control_app, escape_char_no_control, IH.
Qed.

Lemma encode_basestring_no_control s : no_control (Json.encode_basestring s) = true.
Proof.
  unfold Json.encode_basestring.
  change (String Json.dquote (Json.escape s ++ String Json.dquote EmptyString))
    with (String Json.dquote EmptyString ++ Json.escape s ++ String Json.dquote EmptyString).
  now rewrite !no_control_app, escape_no_control.
Qed.

Lemma digits_no_control d : no_control (NilEmpty.string_of_uint d) = true.
Proof. induction d; simpl; [reflexivity | exact IHd ..]. Qed.

Lemma string_of_uint_no_control d : no_control (NilZero.string_of_uint d) = true.
Proof. destruct d; [reflexivity | apply digits_no_control ..]. Qed.

Lemma int_repr_no_control z : no_control (Json.int_repr z) = true.
Proof.
  unfold Json.int_repr, NilZero.string_of_int.
  destruct (Z.to_int z); [|change (no_control (String "-" (NilZero.string_of_uint d)))
                            with (no_control (NilZero.string_of_uint d))];
    apply string_of_uint_no_control.
Qed.

Lemma concat_no_control sep l :
  no_control sep = true ->
  Forall (fun x => no_control x = true) l ->
  no_control (String.concat sep l) = true.
Proof.
  intros Hsep. induction 1 as [|x l Hx Hl IH]; [reflexivity|].
  destruct l as [|y l]; [exact Hx|].
  change (String.concat sep (x :: y :: l)) with (x ++ sep ++ String.concat sep (y :: l)).
  now rewrite !no_control_app, Hx, Hsep, IH.
Qed.

(** [json.dumps] writes no control character: those of a string are
    escaped, and nothing else can hold one. *)
Lemma dumps_no_control v : no_control (Json.dumps v) = true.
Proof.
  induction v as [|[]|n| |s|items IH|items IH] using json_induction;
    try reflexivity.
  - apply int_repr_no_control.
  - apply encode_basestring_no_control.
  - cbn [Json.dumps]. rewrite !no_control_app, concat_no_control; [reflexivity..|].
    induction IH; constructor; assumption.
  - cbn [Json.dumps]. rewrite !no_control_app, concat_no_control; [reflexivity..|].
    induction IH as [|kv l Hkv Hl IH']; constructor; [|exact IH'].
    now rewrite !no_control_app, encode_basestring_no_control, Hkv.
Qed.

(** Splitting at the newline cuts after a text with no control character. *)
Lemma split_go_line a : forall cur rest,
  no_control a = true ->
  PyStr.split_go newline 0 cur (a ++ newline ++ rest)
  = (cur ++ a) :: PyStr.split_go newline 0 EmptyString rest.
Proof.
  unfold no_control.
  induction a as [|c r IH]; intros cur rest; simpl.
  - intros _. now rewrite app_empty_r.
  - intros [Hc Hr]%andb_true_iff.
    assert (Hn : Ascii.eqb (ascii_of_N 10) c = false).
    { apply Ascii.eqb_neq. intros <-. discriminate. }
    change (ascii_of_N 10) with (ascii_of_pos 10) in Hn. rewrite Hn. cbn [andb].
    change (String (ascii_of_pos 10) rest) with (newline ++ rest).
    rewrite IH by assumption. now rewrite app_snoc.
Qed.

Lemma write_documents_acc docs : forall acc,
  fold_left (fun file doc => file ++ output_line doc) docs acc
  = acc ++ write_documents docs.
Proof.
  unfold write_documents.
  induction docs as [|d docs IH]; intros acc; cbn [fold_left].
  - now rewrite app_empty_r.
  - rewrite IH, (IH (EmptyString ++ output_line d)). cbn [String.append].
    now rewrite append_assoc.
Qed.

Lemma write_documents_cons d docs :
  write_documents (d :: docs) = Json.dumps d ++ newline ++ write_documents docs.
Proof.
  unfold write_documents at 1. cbn [fold_left]. rewrite write_documents_acc.
  cbn [String.append]. unfold output_line. now rewrite append_assoc.
Qed.

(** X12. What step 9 writes is one line per document: the text of a
    document holds no control character, so no line break, and cutting the
    written text at the newlines gives the texts of the documents, in their
    order, followed by the empty text after the last newline. *)
Theorem written_lines :
  forall docs : list json,
    Forall (fun doc => no_control (Json.dumps doc) = true) docs
    /\ PyStr.split newline (write_documents docs)
       = (map Json.dumps docs ++ [EmptyString])%list.
Proof.
  intros docs. split.
  - apply Stdlib.Lists.List.Forall_forall. intros doc _. apply dumps_no_control.
  - unfold PyStr.split. induction docs as [|d docs IH]; [reflexivity|].
    rewrite write_documents_cons, split_go_line by apply dumps_no_control.
    cbn [map app String.append]. now rewrite IH.
Qed.

(** ** Missing cells *)

(** On a text [extract_city] raises nothing but the two errors of its
    list accesses and of its unbound local. *)
Lemma extract_city_text_exn name champ e :
  extract_city (Str name) champ = Raise e -> e = IndexError \/ e = UnboundLocalError.
Proof.
  assert (Hlast : forall l x, PyStr.last_item (A := string) l = Raise x -> x = IndexError).
  { intros l x H. now apply last_item_raise in H as [_ ->]. }
  assert (Hloop : return_local (city_loop (PyStr.split_ws name) 0 (PyStr.split_ws name) None)
                  = Raise e -> e = IndexError \/ e = UnboundLocalError).
  { destruct (city_loop _ _ _ _); simpl; [discriminate|]. intros [= <-]. now right. }
  unfold extract_city. destruct champ; [|discriminate].
  destruct (PyStr.contains " - " name).
  - rewrite item_0_split. cbn [mbind result_bind rbind].
    destruct (PyStr.last_item _) as [w|x] eqn:El; cbn [rbind]; [discriminate|].
    apply Hlast in El. intros [= <-]. now left.
  - destruct (PyStr.contains "Championships" name); cbn [mbind result_bind rbind];
      [|exact Hloop].
    destruct (PyStr.last_item (PyStr.split_ws name)) as [w|x] eqn:El;
      cbn [mbind result_bind rbind].
    + destruct (negb (String.eqb w "Championships")); [discriminate | exact Hloop].
    + apply Hlast in El. intros [= <-]. now left.
Qed.

Lemma process_row_raise col r e : process_row col r = Raise e <-> enrich r = Raise e.
Proof.
  unfold process_row. destruct (enrich r); cbn [mbind result_bind rbind];
    split; intros H; (discriminate || congruence).
Qed.

(** X13. The pipeline stops on a row with [AttributeError] exactly when
    the event name of the row, after the corrections of step 2, is
    missing: the flag of such a row is false, and [extract_city] calls
    [split] on the float. *)
Theorem missing_name_stops :
  forall (col : column_dtype) (r : Row),
    process_row col r = Raise AttributeError <->
    event_name (fix_event_name event_corrections r) = NaN.
Proof.
  intros col r. rewrite process_row_raise. unfold enrich. cbv zeta.
  destruct (event_name (fix_event_name event_corrections r)) as [|name].
  - simpl. split; reflexivity.
  - destruct (extract_city (Str name) _) as [city|x] eqn:E; cbn [mbind result_bind rbind].
    + split; discriminate.
    + apply extract_city_text_exn in E as [-> | ->]; split; discriminate.
Qed.

Lemma has_nan_cell x : Json.has_nan (cell_json x) = pd_isna x.
Proof. now destruct x. Qed.

Lemma has_nan_filled d x : Json.has_nan (cell_json (fillna d x)) = false.
Proof. now destruct x. Qed.

Lemma enrich_sample_no_city : enrich sample_row_no_city = Ok sample_enriched_no_city.
Proof. reflexivity. Qed.

(** Where the [nan] of a document comes from: the text cells that are
    copied as they are, and the city as the column gives it back. *)
Lemma document_has_nan col r e :
  enrich r = Ok e ->
  Json.has_nan (create_mongo_document col e)
  = existsb pd_isna (text_cells r) || Json.has_nan (stored_city col (event_city e)).
Proof.
  intros He.
  destruct (enrich_fields r e He) as (Hb & _ & _ & Hcity & _).
  destruct (fix_event_name_other r)
    as (Hid & Hg & _ & _ & Hd & Ht & Hw & Hx & Hr & Hrs & Hws & Hxs).
  cbv zeta in *.
  assert (Hname : pd_isna (event_name (fix_event_name event_corrections r)) = false).
  { destruct (event_name (fix_event_name event_corrections r)); [|reflexivity].
    simpl in Hcity. discriminate. }
  unfold create_mongo_document, split_document, text_cells, range.
  cbn [seq fold_left Nat.sub app flat_map existsb Json.has_nan snd].
  rewrite Hb. cbn [fill_missing event_id event_name gender nationality age_group division
                     total_time work_time roxzone_time run_time run work roxzone].
  rewrite !has_nan_filled, !has_nan_cell, Hname, Hid, Hg, Hd, Ht, Hw, Hx, Hr, Hrs, Hws, Hxs.
  destruct (Json.has_nan (stored_city col (event_city e))), (event_year e); cbn [orb];
    rewrite ?orb_true_r, ?orb_false_r; cbn [orb]; rewrite ?orb_true_r, ?orb_assoc;
    reflexivity.
Qed.

Lemma stored_city_nan col city :
  Json.has_nan (stored_city col city) = true <-> city = None /\ col = StrDtype.
Proof.
  destruct city, col; simpl; split; (discriminate || now intros [? ?] || now split).
Qed.

Lemma city_column_str infer_string cities :
  city_column infer_string cities = StrDtype
  <-> infer_string = true /\ exists c, In (Some c) cities.
Proof.
  unfold city_column. destruct infer_string; cbn [andb].
  - destruct (existsb has_city cities) eqn:E.
    + apply existsb_exists in E as ([c|] & Hin & Hc); [|discriminate].
      split; [intros _; split; [reflexivity | eauto] | reflexivity].
    + split; [discriminate|]. intros [_ [c Hin]].
      assert (H : existsb has_city cities = true)
        by (apply existsb_exists; exists (Some c); now split).
      congruence.
  - split; [discriminate | now intros [? _]].
Qed.

(** X14. The document of a row that passes the pipeline holds a float
    nan exactly when the identifier, the gender, the division or one of
    the 28 time texts of the row is missing, or the row has no city and
    the column of the cities is a [str] column. The texts are copied as
    they are, while a missing name has stopped the pipeline before and a
    missing nationality or age group was filled. The column is a [str]
    column exactly when pandas infers strings and some row of the frame
    has a city. *)
Theorem document_nan_cells :
  forall (col : column_dtype) (r : Row) (e : Enriched),
    enrich r = Ok e ->
    (Json.has_nan (create_mongo_document col e) = true
     <-> existsb pd_isna (text_cells r) = true
         \/ (event_city e = None /\ col = StrDtype))
    /\ (forall infer_string cities,
          col = city_column infer_string cities ->
          (col = StrDtype <-> infer_string = true /\ exists c, In (Some c) cities)).
Proof.
  intros col r e He. split.
  - rewrite (document_has_nan col r e He), orb_true_iff, stored_city_nan. reflexivity.
  - intros infer_string cities ->. apply city_column_str.
Qed.

Lemma document_nan_cells_witness :
  (Json.has_nan (create_mongo_document StrDtype sample_enriched_no_city) = true
   <-> existsb pd_isna (text_cells sample_row_no_city) = true
       \/ (event_city sample_enriched_no_city = None /\ StrDtype = StrDtype))
  /\ (forall infer_string cities,
        StrDtype = city_column infer_string cities ->
        (StrDtype = StrDtype <-> infer_string = true /\ exists c, In (Some c) cities)).
Proof.
  exact (document_nan_cells StrDtype sample_row_no_city sample_enriched_no_city
           enrich_sample_no_city).
Defined.

(** ** Corrected names *)

(** The five names of the table: three words, a season, a year and a
    city, with no championship in them. *)
Lemma event_corrections_names id name :
  event_corrections !! id = Some name ->
  exists season y c,
    PyStr.split_ws name = [season; Json.int_repr y; c]
    /\ championship_flag (Str name) = false
    /\ extract_year (Str name) = Some y
    /\ extract_city (Str name) false = Ok (Some c).
Proof.
  intros H. apply elem_of_list_to_map_2 in H.
  repeat (apply elem_of_cons in H as [[= -> ->]|H]);
    [ exists "S6", 2023, "Munich" | exists "S5", 2023, "Munich"
    | exists "S4", 2022, "Munich" | exists "S6", 2023, "Malmo"
    | exists "S5", 2023, "Koln" | inversion H ];
    repeat split; vm_compute; reflexivity.
Qed.

(** X15. A row whose identifier is a key of the correction table always
    passes the pipeline, whatever its name was: the corrected name is made
    of three words, a season, the year and the city, and the row comes out
    as a regular event with this year and this city. *)
Theorem corrected_row_passes :
  forall (r : Row) (id name : string),
    event_id r = Str id ->
    event_corrections !! id = Some name ->
    exists e season y c,
      enrich r = Ok e
      /\ PyStr.split_ws name = [season; Json.int_repr y; c]
      /\ event_name (base e) = Str name
      /\ is_championship e = false
      /\ event_year e = Some y
      /\ event_city e = Some c.
Proof.
  intros r id name Hid Hk.
  destruct (event_corrections_names id name Hk) as (season & y & c & Hw & Hf & Hy & Hc).
  unfold enrich, fix_event_name. rewrite Hid, Hk. cbv zeta.
  cbn [event_name set_event_name]. rewrite Hf, Hy, Hc. cbn [mbind result_bind rbind].
  eexists _, season, y, c. split; [reflexivity|]. repeat split. exact Hw.
Qed.

Lemma corrected_row_passes_witness :
  exists e season y c,
    enrich sample_row = Ok e
    /\ PyStr.split_ws "S6 2023 Munich" = [season; Json.int_repr y; c]
    /\ event_name (base e) = Str "S6 2023 Munich"
    /\ is_championship e = false
    /\ event_year e = Some y
    /\ event_city e = Some c.
Proof.
  exact (corrected_row_passes sample_row "JGDMS4JI5C9" "S6 2023 Munich" eq_refl eq_refl).
Defined.

(** ** A reader that refuses NaN *)

Section Strict.

Variable pc : string -> result json.
Variable e : exn.
Hypothesis Hpc : pc "NaN" = Raise e.

Lemma array_items_strict items : forall v0 f rest,
  stops_at_nan pc e v0 -> Forall (stops_at_nan pc e) items ->
  (list_sum (map (fun x => S (Json.need x)) (v0 :: items)) <= f)%nat ->
  Json.array_items pc f (String.concat ", " (map Json.dumps (v0 :: items)) ++ String "]"%char rest)
  = if existsb Json.has_nan (v0 :: items) then Raise e else Ok (v0 :: items, rest).
Proof.
  induction items as [|v1 more IH]; intros v0 f rest H0 Hall Hf;
    (destruct f as [|f]; [simpl in Hf; lia|]); rewrite array_items_eq.
  - cbn [map String.concat existsb]. rewrite H0; [| simpl in Hf; lia | reflexivity].
    destruct (Json.has_nan v0); cbn [rbind orb fst snd]; [reflexivity|].
    next_char. reflexivity.
  - cbn [map]. rewrite concat_cons2, append_assoc.
    rewrite H0; [| simpl in Hf; lia | reflexivity].
    change (existsb Json.has_nan (v0 :: v1 :: more))
      with (Json.has_nan v0 || existsb Json.has_nan (v1 :: more)).
    destruct (Json.has_nan v0); cbn [rbind orb fst snd]; [reflexivity|].
    cbn [String.append]. next_char. rewrite skip_ws_space.
    inversion Hall as [|? ? H1 Hmore]; subst.
    change (Json.dumps v1 :: map Json.dumps more) with (map Json.dumps (v1 :: more)).
    destruct (concat_dumps_head v1 more (String "]"%char rest)) as (c & r & E & Hw & _).
    rewrite E, (skip_ws_plain c r Hw), <- E.
    rewrite (IH v1 f rest H1 Hmore) by (simpl in Hf; simpl; lia).
    destruct (existsb Json.has_nan (v1 :: more)); reflexivity.
Qed.

Lemma object_pairs_strict items : forall kv0 f rest body,
  stops_at_nan pc e (snd kv0) ->
  Forall (fun kv => stops_at_nan pc e (snd kv)) items ->
  (list_sum (map (fun kv => S (Json.need (snd kv))) (kv0 :: items)) <= f)%nat ->
  String.concat ", " (map Json.pair_text (kv0 :: items)) ++ String "}"%char rest
  = String Json.dquote body ->
  Json.object_pairs pc f body
  = if existsb (fun kv => Json.has_nan (snd kv)) (kv0 :: items)
    then Raise e else Ok (kv0 :: items, rest).
Proof.
  induction items as [|kv1 more IH]; intros kv0 f rest body H0 Hall Hf Hbody;
    (destruct f as [|f]; [simpl in Hf; lia|]); rewrite object_pairs_eq.
  - cbn [map String.concat] in Hbody. rewrite pair_text_app in Hbody.
    apply string_cons_inj in Hbody. subst body. rewrite scanstring_escape.
    cbn [rbind fst snd]. next_char. rewrite skip_ws_space, skip_ws_dumps.
    rewrite H0; [| simpl in Hf; lia | reflexivity].
    cbn [existsb]. destruct (Json.has_nan (snd kv0)); cbn [rbind orb fst snd];
      [reflexivity|].
    next_char. destruct kv0; reflexivity.
  - cbn [map] in Hbody. rewrite concat_cons2, append_assoc, pair_text_app in Hbody.
    apply string_cons_inj in Hbody. subst body. rewrite scanstring_escape.
    cbn [rbind fst snd]. next_char. rewrite skip_ws_space, skip_ws_dumps.
    rewrite H0; [| simpl in Hf; lia | reflexivity].
    change (existsb (fun kv => Json.has_nan (snd kv)) (kv0 :: kv1 :: more))
      with (Json.has_nan (snd kv0)
            || existsb (fun kv => Json.has_nan (snd kv)) (kv1 :: more)).
    destruct (Json.has_nan (snd kv0)); cbn [rbind orb fst snd]; [reflexivity|].
    cbn [String.append]. next_char. rewrite skip_ws_space.
    inversion Hall as [|? ? H1 Hmore]; subst.
    destruct (concat_pairs_head kv1 more (String "}"%char rest)) as [body' Hb].
    change (Json.pair_text kv1 :: map Json.pair_text more)
      with (map Json.pair_text (kv1 :: more)).
    rewrite Hb. next_char.
    rewrite (IH kv1 f rest body' H1 Hmore) by (exact Hb || (simpl in Hf; simpl; lia)).
    destruct (existsb (fun kv => Json.has_nan (snd kv)) (kv1 :: more));
      [reflexivity | destruct kv0; reflexivity].
Qed.

(** The reader stops at the first [NaN] of a serialized value. *)
Lemma scan_once_strict v :
  Json.keys_distinct v = true -> stops_at_nan pc e v.
Proof.
  induction v as [|b|n| |s|items IH|items IH] using json_induction;
    intros Hk f rest Hf Hd;
    (destruct f as [|f]; [simpl in Hf; lia|]).
  - reflexivity.
  - destruct b; reflexivity.
  - now apply scan_once_int.
  - cbn [Json.dumps Json.has_nan]. rewrite scan_once_nan, Hpc. reflexivity.
  - cbn [Json.dumps Json.encode_basestring String.append Json.has_nan].
    rewrite scan_once_string, append_assoc. cbn [String.append].
    rewrite scanstring_escape. reflexivity.
  - cbn [Json.dumps String.append Json.has_nan]. rewrite append_assoc.
    cbn [String.append]. rewrite scan_once_list.
    destruct items as [|v0 more].
    { cbn [map String.concat String.append existsb]. next_char. reflexivity. }
    destruct (concat_dumps_head v0 more (String "]"%char rest)) as (c & r & E & Hw & Hc).
    assert (Hall : Forall (stops_at_nan pc e) (v0 :: more)).
    { rewrite Stdlib.Lists.List.Forall_forall in IH |- *. intros x Hx. apply IH; [exact Hx|].
      cbn [Json.keys_distinct] in Hk. rewrite forallb_forall in Hk. now apply Hk. }
    rewrite E, (skip_ws_plain c r Hw), Hc, <- E.
    inversion Hall as [|? ? H0 Hmore]; subst.
    rewrite (array_items_strict more v0 f rest H0 Hmore)
      by (cbn [Json.need] in Hf; lia).
    destruct (existsb Json.has_nan (v0 :: more)); reflexivity.
  - cbn [Json.dumps Json.has_nan].
    change (map (fun kv => Json.encode_basestring (fst kv) ++ ": " ++ Json.dumps (snd kv))
              items)
      with (map Json.pair_text items).
    cbn [String.append]. rewrite append_assoc. cbn [String.append].
    rewrite scan_once_dict.
    destruct items as [|kv0 more].
    { cbn [map String.concat String.append existsb]. next_char. reflexivity. }
    destruct (concat_pairs_head kv0 more (String "}"%char rest)) as (body & E).
    assert (Hall : Forall (fun kv => stops_at_nan pc e (snd kv)) (kv0 :: more)).
    { rewrite Stdlib.Lists.List.Forall_forall in IH |- *. intros x Hx. apply IH; [exact Hx|].
      cbn [Json.keys_distinct] in Hk. apply andb_true_iff in Hk as [_ Hk].
      rewrite forallb_forall in Hk. now apply Hk. }
    rewrite E. next_char.
    inversion Hall as [|? ? H0 Hmore]; subst.
    rewrite (object_pairs_strict more kv0 f rest body H0 Hmore)
      by (exact E || (cbn [Json.need] in Hf; lia)).
    destruct (existsb (fun kv => Json.has_nan (snd kv)) (kv0 :: more)) eqn:En;
      cbn [rbind fst snd]; [reflexivity|].
    rewrite dict_of_pairs_distinct; [reflexivity|].
    cbn [Json.keys_distinct] in Hk. now apply andb_true_iff in Hk as [Hk _].
Qed.

Lemma loads_strict v :
  Json.keys_distinct v = true -> Json.has_nan v = true ->
  Json.loads pc (output_line v) = Raise e.
Proof.
  intros Hk Hn. pose proof (scan_once_strict v Hk) as Hv.
  pose proof (need_le_length v) as Hl.
  unfold Json.loads, output_line. rewrite skip_ws_dumps, Hv, Hn; [reflexivity | | reflexivity].
  rewrite length_app. lia.
Qed.

End Strict.

(** X16. The line of a document that holds a [nan] is refused by every
    reader whose hook for the constants refuses [NaN]: [json.loads] stops
    with the exception of the hook, and gives no document. *)
Theorem nan_line_refused :
  forall (col : column_dtype) (row : Enriched)
         (parse_constant : string -> result json) (e : exn),
    parse_constant "NaN" = Raise e ->
    Json.has_nan (create_mongo_document col row) = true ->
    Json.loads parse_constant (output_line (create_mongo_document col row)) = Raise e.
Proof.
  intros col row pc e Hpc Hn.
  apply loads_strict; [exact Hpc | apply create_mongo_document_keys | exact Hn].
Qed.

Lemma nan_line_refused_witness :
  Json.loads Json.reject_constant
    (output_line (create_mongo_document ObjectDtype sample_enriched_dnf))
  = Raise ValueError.
Proof.
  exact (nan_line_refused ObjectDtype sample_enriched_dnf Json.reject_constant ValueError
           eq_refl eq_refl).
Defined.

(** ** The line of a row with a missing cell *)

(** Every row that passes the pipeline with a missing text cell, or with
    no city in a [str] column, gets a line that a reader which refuses
    [NaN] refuses. *)
Lemma nan_row_line_refused col r e :
  enrich r = Ok e ->
  existsb pd_isna (text_cells r) = true \/ (event_city e = None /\ col = StrDtype) ->
  process_row col r = Ok (output_line (create_mongo_document col e))
  /\ Json.loads Json.reject_constant (output_line (create_mongo_document col e))
     = Raise ValueError.
Proof.
  intros He Hnan. split.
  - unfold process_row. now rewrite He.
  - apply loads_strict; [reflexivity | apply create_mongo_document_keys |].
    rewrite (document_has_nan col r e He), orb_true_iff, stored_city_nan. exact Hnan.
Qed.

(** C5. The line written for [sample_row_dnf], whose third work time is
    missing, holds the token NaN in the place of that time, whatever the
    dtype of the column of the cities: a reader that refuses NaN, which is
    not JSON, stops on the line with the error of its hook and gives no
    document, and only a reader that takes NaN for the float [nan], as
    Python's own does, reads the document back. In a [str] column the same
    happens to [sample_row_no_city], which has every text and no city,
    while in an [object] column its line is read back by both readers. *)
Theorem output_line_nan_not_json :
  (forall col,
     process_row col sample_row_dnf
     = Ok (output_line (create_mongo_document col sample_enriched_dnf))
     /\ PyStr.contains ": NaN," (output_line (create_mongo_document col sample_enriched_dnf))
        = true
     /\ Json.loads Json.reject_constant
          (output_line (create_mongo_document col sample_enriched_dnf))
        = Raise ValueError
     /\ Json.loads Json.python_constant
          (output_line (create_mongo_document col sample_enriched_dnf))
        = Ok (create_mongo_document col sample_enriched_dnf))
  /\ process_row StrDtype sample_row_no_city
     = Ok (output_line (create_mongo_document StrDtype sample_enriched_no_city))
  /\ PyStr.contains ": NaN," (output_line (create_mongo_document StrDtype sample_enriched_no_city))
     = true
  /\ Json.loads Json.reject_constant
       (output_line (create_mongo_document StrDtype sample_enriched_no_city))
     = Raise ValueError
  /\ Json.loads Json.reject_constant
       (output_line (create_mongo_document ObjectDtype sample_enriched_no_city))
     = Ok (create_mongo_document ObjectDtype sample_enriched_no_city).
Proof.
  split; [intros []; repeat split; vm_compute; reflexivity|].
  repeat split; vm_compute; reflexivity.
Qed.
